(** * coc-pyright: the ruff output adapter and the Python interpreter resolver

    A shallow embedding of [src/features/linters/ruff.ts] and of
    [src/configSettings.ts], with the theorems that settle what the
    specification says about them.

    JavaScript values are embedded as an inductive type, thrown values as
    the left summand of a result type, and the host (file system, child
    processes, [process.env], the [path] module) as a record of oracles
    plus an explicit process state. *)

From Stdlib Require Import ZArith String Ascii List Bool Lia.
From stdpp Require Import base option list strings gmap.

Local Open Scope string_scope.
Local Open Scope Z_scope.

(** ** JavaScript values, as [JSON.parse] produces and the adapter reads them *)

Module Js.

(** Numbers are the integers a double holds exactly, plus [NaN]; this is
    what rows and columns are.  Objects keep their properties in
    insertion order, with distinct keys. *)
Unset Elimination Schemes.
Inductive JsValue : Type :=
| JUndefined
| JNull
| JBool (b : bool)
| JNum (n : Z)
| JNaN
| JStr (s : string)
| JArr (elems : list JsValue)
| JObj (props : list (string * JsValue)).
Set Elimination Schemes.

(** What a [throw] carries: an instance of [Error] (with its [name] and
    [message]) or any other value. *)
Inductive Thrown : Type :=
| ThrownError (name message : string)
| ThrownValue (v : JsValue).

Definition JsResult (A : Type) : Type := Thrown + A.

Definition ok {A} (a : A) : JsResult A := inr a.
Definition throw {A} (e : Thrown) : JsResult A := inl e.

Definition bind {A B} (m : JsResult A) (k : A -> JsResult B) : JsResult B :=
  match m with
  | inl e => inl e
  | inr a => k a
  end.

Definition TypeError {A} (message : string) : JsResult A :=
  throw (ThrownError "TypeError" message).

(** [error instanceof Error] *)
Definition instanceof_Error (e : Thrown) : bool :=
  match e with
  | ThrownError _ _ => true
  | ThrownValue _ => false
  end.

(** [error.message] of an [Error] *)
Definition error_message (e : Thrown) : string :=
  match e with
  | ThrownError _ message => message
  | ThrownValue _ => ""
  end.

(** [typeof]-style rendering of the two values a property cannot be read
    from. *)
Definition nullish_name (v : JsValue) : option string :=
  match v with
  | JUndefined => Some "undefined"
  | JNull => Some "null"
  | _ => None
  end.

Fixpoint assoc (k : string) (props : list (string * JsValue)) : option JsValue :=
  match props with
  | [] => None
  | (k', v) :: rest => if String.eqb k k' then Some v else assoc k rest
  end.

(** [v.name] for a property name that no built-in prototype defines
    (all names the adapter reads are such): reading from [undefined] or
    [null] throws a [TypeError], an object gives its own property or
    [undefined], every other value gives [undefined]. *)
Definition get (v : JsValue) (name : string) : JsResult JsValue :=
  match v with
  | JUndefined | JNull =>
      TypeError ("Cannot read properties of "
                   ++ default "" (nullish_name v)
                   ++ " (reading '" ++ name ++ "')")
  | JObj props => ok (default JUndefined (assoc name props))
  | _ => ok JUndefined
  end.

(** [!v] is [negb (truthy v)] *)
Definition truthy (v : JsValue) : bool :=
  match v with
  | JUndefined | JNull | JNaN => false
  | JBool b => b
  | JNum n => negb (n =? 0)
  | JStr s => negb (String.eqb s "")
  | JArr _ | JObj _ => true
  end.

(** [[a, b, ...].includes(v)] on an array of string literals: the
    comparison (SameValueZero) holds only for an equal string. *)
Definition includes (lits : list string) (v : JsValue) : bool :=
  match v with
  | JStr s => existsb (String.eqb s) lits
  | _ => false
  end.

(** [Array.prototype.map] with a callback that may throw: elements are
    visited in index order and the first throw ends the traversal. *)
Fixpoint map_elems {A B} (f : A -> JsResult B) (l : list A) : JsResult (list B) :=
  match l with
  | [] => ok []
  | x :: rest =>
      bind (f x) (fun y => bind (map_elems f rest) (fun ys => ok (y :: ys)))
  end.

(** [v.map(f)] on the value [JSON.parse] returned. *)
Definition map_method {B} (callee : string) (v : JsValue)
    (f : JsValue -> JsResult B) : JsResult (list B) :=
  match v with
  | JArr elems => map_elems f elems
  | JUndefined | JNull =>
      TypeError ("Cannot read properties of "
                   ++ default "" (nullish_name v) ++ " (reading 'map')")
  | _ => TypeError (callee ++ ".map is not a function")
  end.

End Js.

Export Js.

Declare Scope js_scope.
Delimit Scope js_scope with js.
Notation "x <- m ;; k" := (Js.bind m (fun x => k))
  (at level 100, m at next level, right associativity) : js_scope.

(** ** [src/features/linters/ruff.ts] *)

Module Ruff.

Local Open Scope js_scope.

Definition COLUMN_OFF_SET : Z := 1.

(** *** The shapes ruff reports (the interfaces of the source) *)

Record IRuffLocation : Type := {
  row : Z;
  column : Z;
}.

Record IRuffFix : Type := {
  content : string;
  fix_location : IRuffLocation;
  fix_end_location : IRuffLocation;
}.

(** The [fix] member is missing, or [null], on an entry ruff cannot fix;
    [kind] is a string or an object, and is never read. *)
Record IRuffLintMessage : Type := {
  kind : JsValue;
  code : string;
  message : string;
  fix_ : option IRuffFix;
  location : IRuffLocation;
  end_location : IRuffLocation;
  filename : string;
}.

(** *** The host editor's types ([coc.nvim], [../../types]) *)

Record Position : Type := {
  line : Z;
  character : Z;
}.

Record Range : Type := {
  range_start : Position;
  range_end : Position;
}.

(** [TextEdit.replace(range, newText)] builds this record. *)
Record TextEdit : Type := {
  range : Range;
  newText : JsValue;
}.

Definition TextEdit_replace (r : Range) (newText : JsValue) : TextEdit :=
  {| range := r; newText := newText |}.

(** [{ changes: { [uri]: TextEdit[] } }] *)
Record WorkspaceEdit : Type := {
  changes : gmap string (list TextEdit);
}.

Inductive DiagnosticTag : Type :=
| Unnecessary
| Deprecated.

Inductive LintMessageSeverity : Type :=
| Hint
| Error
| Warning
| Information.

(** The fields hold whatever value the entry had: nothing checks the
    parsed JSON against the interfaces above. *)
Record ILintMessage : Type := {
  msg_line : JsValue;
  msg_column : JsValue;
  msg_endLine : JsValue;
  msg_endColumn : JsValue;
  msg_code : JsValue;
  msg_message : JsValue;
  msg_type : string;
  msg_severity : LintMessageSeverity;
  msg_tags : list DiagnosticTag;
  msg_provider : string;
  msg_file : JsValue;
  msg_fix : option WorkspaceEdit;
}.

(** The output channel, as the lines appended to it so far. *)
Definition OutputChannel : Type := list string.

Definition appendLine (ch : OutputChannel) (l : string) : OutputChannel :=
  (ch ++ [l])%list.

(** The runtime and the libraries the adapter calls, and the linter's
    identifier. *)
Record Runtime : Type := {
  JSON_parse : string -> JsResult JsValue;
  (** [v - k] when [v] is a string, an array or an object (the runtime
      converts it to a number first, which can throw). *)
  minus_coerced : JsValue -> Z -> JsResult JsValue;
  (** [Uri.parse(filename).toString()] *)
  Uri_parse_toString : JsValue -> JsResult string;
  (** [Range.create(startLine, startCharacter, endLine, endCharacter)] *)
  Range_create : JsValue -> JsValue -> JsValue -> JsValue -> JsResult Range;
  (** [this.info.id] *)
  info_id : string;
}.

Section Adapter.

Variable rt : Runtime.

(** [v - k].  On two integers this is the subtraction of the integers,
    which is what the runtime's subtraction of doubles gives as long as
    [v] is a safe integer ([isSafeInteger] below) and [k] is 0 or 1;
    beyond that the runtime rounds the difference to the nearest
    double. *)
Definition minus (v : JsValue) (k : Z) : JsResult JsValue :=
  match v with
  | JNum n => ok (JNum (n - k))
  | JNull => ok (JNum (0 - k))
  | JBool b => ok (JNum ((if b then 1 else 0) - k))
  | JUndefined | JNaN => ok JNaN
  | JStr _ | JArr _ | JObj _ => minus_coerced rt v k
  end.

Definition fixToWorkspaceEdit (filename fix_ : JsValue)
    : JsResult (option WorkspaceEdit) :=
  if negb (truthy fix_) then ok None
  else
    u <- Uri_parse_toString rt filename ;;
    loc <- get fix_ "location" ;;
    r <- get loc "row" ;;
    startLine <- minus r 1 ;;
    loc <- get fix_ "location" ;;
    startCharacter <- get loc "column" ;;
    eloc <- get fix_ "end_location" ;;
    r <- get eloc "row" ;;
    endLine <- minus r 1 ;;
    eloc <- get fix_ "end_location" ;;
    endCharacter <- get eloc "column" ;;
    range <- Range_create rt startLine startCharacter endLine endCharacter ;;
    content <- get fix_ "content" ;;
    ok (Some {| changes := {[ u := [TextEdit_replace range content] ]} |}).

(** The callback of [parseMessages]: the members of the object literal
    are evaluated in the order they are written. *)
Definition parse_entry (msg : JsValue) : JsResult ILintMessage :=
  loc <- get msg "location" ;;
  line <- get loc "row" ;;
  loc <- get msg "location" ;;
  c <- get loc "column" ;;
  column <- minus c COLUMN_OFF_SET ;;
  eloc <- get msg "end_location" ;;
  endLine <- get eloc "row" ;;
  eloc <- get msg "end_location" ;;
  endColumn <- get eloc "column" ;;
  code <- get msg "code" ;;
  message <- get msg "message" ;;
  code' <- get msg "code" ;;
  file <- get msg "filename" ;;
  filename <- get msg "filename" ;;
  fix_ <- get msg "fix" ;;
  edit <- fixToWorkspaceEdit filename fix_ ;;
  ok {| msg_line := line;
        msg_column := column;
        msg_endLine := endLine;
        msg_endColumn := endColumn;
        msg_code := code;
        msg_message := message;
        msg_type := "";
        msg_severity := Warning;
        msg_tags := if includes ["F401"; "F841"] code' then [Unnecessary] else [];
        msg_provider := info_id rt;
        msg_file := file;
        msg_fix := edit |}.

(** The body of the [try] block. *)
Definition parse_body (output : string) : JsResult (list ILintMessage) :=
  parsed <- JSON_parse rt output ;;
  map_method "JSON.parse(...)" parsed parse_entry.

(** [parseMessages]: the list the promise resolves to, and the output
    channel afterwards.  The promise never rejects: every statement
    outside the [try] block is in the [catch] handler, which only
    appends lines. *)
Definition parseMessages (output : string) (ch : OutputChannel)
    : list ILintMessage * OutputChannel :=
  match parse_body output with
  | inr messages => (messages, ch)
  | inl error =>
      let ch := appendLine ch ("Linting with " ++ info_id rt ++ " failed:") in
      let ch :=
        if instanceof_Error error then appendLine ch (error_message error)
        else ch in
      ([], ch)
  end.

End Adapter.

(** *** Entries that follow the interfaces *)

(** Reading an entry of the parsed array as an [IRuffLintMessage]: these
    decoders say which parsed values the interfaces of the source
    describe.  The adapter itself never runs them. *)
Definition field (v : JsValue) (name : string) : option JsValue :=
  match v with
  | JObj props => Some (default JUndefined (assoc name props))
  | _ => None
  end.

Definition as_num (v : JsValue) : option Z :=
  match v with JNum n => Some n | _ => None end.

Definition as_str (v : JsValue) : option string :=
  match v with JStr s => Some s | _ => None end.

Definition decode_location (v : JsValue) : option IRuffLocation :=
  r ← field v "row" ≫= as_num;
  c ← field v "column" ≫= as_num;
  Some {| row := r; column := c |}.

Definition decode_fix (v : JsValue) : option IRuffFix :=
  t ← field v "content" ≫= as_str;
  l ← field v "location" ≫= decode_location;
  e ← field v "end_location" ≫= decode_location;
  Some {| content := t; fix_location := l; fix_end_location := e |}.

Definition decode_entry (v : JsValue) : option IRuffLintMessage :=
  k ← field v "kind";
  c ← field v "code" ≫= as_str;
  m ← field v "message" ≫= as_str;
  f ← match field v "fix" with
      | Some (JUndefined | JNull) => Some None
      | Some fv => Some <$> decode_fix fv
      | None => None
      end;
  l ← field v "location" ≫= decode_location;
  e ← field v "end_location" ≫= decode_location;
  n ← field v "filename" ≫= as_str;
  Some {| kind := k; code := c; message := m; fix_ := f;
          location := l; end_location := e; filename := n |}.

(** [Number.isSafeInteger]: the integers between [-(2^53 - 1)] and
    [2^53 - 1].  A double holds each of them, and each of them minus one,
    exactly. *)
Definition isSafeInteger (n : Z) : bool :=
  (- (2 ^ 53 - 1) <=? n) && (n <=? 2 ^ 53 - 1).

(** The unsigned 32-bit-style integers of the language server protocol. *)
Definition uinteger (n : Z) : bool := (0 <=? n) && (n <=? 2147483647).

Definition mkRange (a b c d : Z) : Range :=
  {| range_start := {| line := a; character := b |};
     range_end := {| line := c; character := d |} |}.

(** The range of a reported fix, 0-based in its lines. *)
Definition fix_range (f : IRuffFix) : Range :=
  mkRange (row (fix_location f) - 1) (column (fix_location f))
          (row (fix_end_location f) - 1) (column (fix_end_location f)).

Definition fix_positions_ok (f : IRuffFix) : bool :=
  uinteger (row (fix_location f) - 1) && uinteger (column (fix_location f))
  && uinteger (row (fix_end_location f) - 1) && uinteger (column (fix_end_location f)).

(** What the adapter relies on from [Range.create]: four [uinteger]s are
    accepted, and a range that is built holds the four numbers given. *)
Definition Range_create_accepts (rt : Runtime) : Prop :=
  forall a b c d : Z,
    uinteger a = true -> uinteger b = true ->
    uinteger c = true -> uinteger d = true ->
    Range_create rt (JNum a) (JNum b) (JNum c) (JNum d) = inr (mkRange a b c d).

Definition Range_create_builds (rt : Runtime) : Prop :=
  forall (a b c d : Z) (r : Range),
    Range_create rt (JNum a) (JNum b) (JNum c) (JNum d) = inr r ->
    r = mkRange a b c d.

(** The fix the adapter attaches to an entry that follows the
    interfaces. *)
Definition decoded_fix (rt : Runtime) (e : IRuffLintMessage) : JsResult (option WorkspaceEdit) :=
  match fix_ e with
  | None => ok None
  | Some f =>
      u <- Uri_parse_toString rt (JStr (filename e)) ;;
      r <- Range_create rt (JNum (row (fix_location f) - 1))
                           (JNum (column (fix_location f)))
                           (JNum (row (fix_end_location f) - 1))
                           (JNum (column (fix_end_location f))) ;;
      ok (Some {| changes := {[ u := [TextEdit_replace r (JStr (content f))] ]} |})
  end.

(** An entry whose fix, if any, the libraries accept: positions that are
    1-based lines and 0-based columns, and a file name [Uri.parse] takes. *)
Definition entry_fixable (rt : Runtime) (e : IRuffLintMessage) : Prop :=
  match fix_ e with
  | None => True
  | Some f =>
      fix_positions_ok f = true /\
      exists u, Uri_parse_toString rt (JStr (filename e)) = inr u
  end.

End Ruff.

(** ** A concrete runtime for the examples

    The theorems below hold for every [Ruff.Runtime].  To run the adapter
    on concrete text, this module gives one: [JSON.parse] for documents
    whose numbers are integer literals and whose strings use no [\u]
    escape (on any other document it answers with a [SyntaxError], which
    the real runtime does not, so the examples stay within such
    documents), [Range.create] as the language-server library has it, and
    [Uri.parse] for absolute file paths. *)

Module Node.

Inductive Parsed (A : Type) : Type :=
| Done (a : A) (rest : list ascii)
| Stuck.
Arguments Done {A} a rest.
Arguments Stuck {A}.

Definition is_ws (c : ascii) : bool :=
  let n := nat_of_ascii c in
  (n =? 32)%nat || (n =? 9)%nat || (n =? 10)%nat || (n =? 13)%nat.

Fixpoint skip_ws (s : list ascii) : list ascii :=
  match s with
  | c :: rest => if is_ws c then skip_ws rest else s
  | [] => []
  end.

Definition is_digit (c : ascii) : bool :=
  let n := nat_of_ascii c in (48 <=? n)%nat && (n <=? 57)%nat.

Fixpoint digits (acc : Z) (s : list ascii) : Z * list ascii :=
  match s with
  | c :: rest =>
      if is_digit c
      then digits (10 * acc + (Z.of_nat (nat_of_ascii c) - 48)) rest
      else (acc, s)
  | [] => (acc, [])
  end.

(** After the digits of an integer no fraction or exponent may follow. *)
Definition ends_integer (rest : list ascii) : bool :=
  match rest with
  | c :: _ => negb (is_digit c || Ascii.eqb c "." || Ascii.eqb c "e" || Ascii.eqb c "E")
  | [] => true
  end.

Definition parse_natural (s : list ascii) : Parsed Z :=
  match s with
  | c :: rest =>
      if Ascii.eqb c "0" then
        if ends_integer rest then Done 0 rest else Stuck
      else if is_digit c then
        let '(n, rest') := digits 0 s in
        if ends_integer rest' then Done n rest' else Stuck
      else Stuck
  | [] => Stuck
  end.

Definition parse_number (s : list ascii) : Parsed JsValue :=
  match s with
  | c :: rest =>
      if Ascii.eqb c "-" then
        match parse_natural rest with
        | Done n rest' => Done (JNum (- n)) rest'
        | Stuck => Stuck
        end
      else
        match parse_natural s with
        | Done n rest' => Done (JNum n) rest'
        | Stuck => Stuck
        end
  | [] => Stuck
  end.

Definition dquote : ascii := ascii_of_nat 34.

Definition unescape (c : ascii) : option ascii :=
  if Ascii.eqb c dquote then Some dquote
  else if Ascii.eqb c "\" then Some "\"%char
  else if Ascii.eqb c "/" then Some "/"%char
  else if Ascii.eqb c "b" then Some (ascii_of_nat 8)
  else if Ascii.eqb c "f" then Some (ascii_of_nat 12)
  else if Ascii.eqb c "n" then Some (ascii_of_nat 10)
  else if Ascii.eqb c "r" then Some (ascii_of_nat 13)
  else if Ascii.eqb c "t" then Some (ascii_of_nat 9)
  else None.

(** The characters of a string literal after its opening quote; [acc]
    holds the characters read so far, last first. *)
Fixpoint parse_chars (s : list ascii) (acc : list ascii) : Parsed string :=
  match s with
  | [] => Stuck
  | c :: rest =>
      if Ascii.eqb c dquote then Done (string_of_list_ascii (rev acc)) rest
      else if Ascii.eqb c "\" then
        match rest with
        | e :: rest' =>
            match unescape e with
            | Some ch => parse_chars rest' (ch :: acc)
            | None => Stuck
            end
        | [] => Stuck
        end
      else if (nat_of_ascii c <? 32)%nat then Stuck
      else parse_chars rest (c :: acc)
  end.

Fixpoint strip_prefix (p s : list ascii) : option (list ascii) :=
  match p, s with
  | [], _ => Some s
  | a :: p', b :: s' => if Ascii.eqb a b then strip_prefix p' s' else None
  | _ :: _, [] => None
  end.

(** A later member with the same key replaces the earlier value, in
    place. *)
Fixpoint define (k : string) (v : JsValue) (props : list (string * JsValue))
    : list (string * JsValue) :=
  match props with
  | [] => [(k, v)]
  | (k', v') :: rest =>
      if String.eqb k k' then (k, v) :: rest else (k', v') :: define k v rest
  end.

Definition literal (word : string) (v : JsValue) (s : list ascii)
    : option (Parsed JsValue) :=
  match strip_prefix (list_ascii_of_string word) s with
  | Some rest => Some (Done v rest)
  | None => None
  end.

Fixpoint parse_value (fuel : nat) (s : list ascii) : Parsed JsValue :=
  match fuel with
  | O => Stuck
  | S fuel =>
      match skip_ws s with
      | [] => Stuck
      | c :: rest =>
          if Ascii.eqb c dquote then
            match parse_chars rest [] with
            | Done str rest' => Done (JStr str) rest'
            | Stuck => Stuck
            end
          else if Ascii.eqb c "[" then
            match skip_ws rest with
            | c' :: rest' =>
                if Ascii.eqb c' "]" then Done (JArr []) rest'
                else match parse_elements fuel rest [] with
                     | Done vs rest'' => Done (JArr vs) rest''
                     | Stuck => Stuck
                     end
            | [] => Stuck
            end
          else if Ascii.eqb c "{" then
            match skip_ws rest with
            | c' :: rest' =>
                if Ascii.eqb c' "}" then Done (JObj []) rest'
                else match parse_members fuel rest [] with
                     | Done ps rest'' => Done (JObj ps) rest''
                     | Stuck => Stuck
                     end
            | [] => Stuck
            end
          else
            match literal "null" JNull (c :: rest),
                  literal "true" (JBool true) (c :: rest),
                  literal "false" (JBool false) (c :: rest) with
            | Some r, _, _ | None, Some r, _ | None, None, Some r => r
            | None, None, None => parse_number (c :: rest)
            end
      end
  end
with parse_elements (fuel : nat) (s : list ascii) (acc : list JsValue)
    : Parsed (list JsValue) :=
  match fuel with
  | O => Stuck
  | S fuel =>
      match parse_value fuel s with
      | Done v rest =>
          match skip_ws rest with
          | c :: rest' =>
              if Ascii.eqb c "," then parse_elements fuel rest' (v :: acc)
              else if Ascii.eqb c "]" then Done (rev (v :: acc)) rest'
              else Stuck
          | [] => Stuck
          end
      | Stuck => Stuck
      end
  end
with parse_members (fuel : nat) (s : list ascii) (acc : list (string * JsValue))
    : Parsed (list (string * JsValue)) :=
  match fuel with
  | O => Stuck
  | S fuel =>
      match skip_ws s with
      | q :: rest =>
          if Ascii.eqb q dquote then
            match parse_chars rest [] with
            | Done k rest1 =>
                match skip_ws rest1 with
                | colon :: rest2 =>
                    if Ascii.eqb colon ":" then
                      match parse_value fuel rest2 with
                      | Done v rest3 =>
                          match skip_ws rest3 with
                          | c :: rest4 =>
                              if Ascii.eqb c "," then
                                parse_members fuel rest4 (define k v acc)
                              else if Ascii.eqb c "}" then
                                Done (define k v acc) rest4
                              else Stuck
                          | [] => Stuck
                          end
                      | Stuck => Stuck
                      end
                    else Stuck
                | [] => Stuck
                end
            | Stuck => Stuck
            end
          else Stuck
      | [] => Stuck
      end
  end.

Definition SyntaxError {A} (message : string) : JsResult A :=
  throw (ThrownError "SyntaxError" message).

(** [JSON.parse(text)]; the wording of the error message is the
    engine's own and is not reproduced. *)
Definition JSON_parse (text : string) : JsResult JsValue :=
  let s := list_ascii_of_string text in
  match parse_value (2 + length s) s with
  | Done v rest =>
      match skip_ws rest with
      | [] => ok v
      | _ :: _ => SyntaxError "Unexpected non-whitespace character after JSON"
      end
  | Stuck => SyntaxError "Unexpected token in JSON"
  end.

(** [Range.create] of [vscode-languageserver-types]: four [uinteger]s
    give the range, anything else is refused. *)
Definition Range_create (a b c d : JsValue) : JsResult Ruff.Range :=
  match a, b, c, d with
  | JNum a, JNum b, JNum c, JNum d =>
      if Ruff.uinteger a && Ruff.uinteger b && Ruff.uinteger c && Ruff.uinteger d
      then ok (Ruff.mkRange a b c d)
      else throw (ThrownError "Error" "Range#create called with invalid arguments")
  | _, _, _, _ =>
      throw (ThrownError "Error" "Range#create called with invalid arguments")
  end.

(** [Uri.parse(p).toString()] for an absolute path without characters
    that need escaping. *)
Definition Uri_parse_toString (v : JsValue) : JsResult string :=
  match v with
  | JStr p => ok ("file://" ++ p)
  | _ => throw (ThrownError "Error" "[UriError]: not an absolute file path")
  end.

(** Subtraction from a value that is not a number is not needed by the
    examples; here it gives [NaN]. *)
Definition runtime : Ruff.Runtime :=
  {| Ruff.JSON_parse := JSON_parse;
     Ruff.minus_coerced := fun _ _ => ok JNaN;
     Ruff.Uri_parse_toString := Uri_parse_toString;
     Ruff.Range_create := Range_create;
     Ruff.info_id := "ruff" |}.

(** The same runtime with libraries that refuse everything: for the
    entries that never reach them. *)
Definition refusing_runtime : Ruff.Runtime :=
  {| Ruff.JSON_parse := JSON_parse;
     Ruff.minus_coerced := fun _ _ => ok JNaN;
     Ruff.Uri_parse_toString := fun _ => throw (ThrownError "Error" "[UriError]");
     Ruff.Range_create := fun _ _ _ _ =>
       throw (ThrownError "Error" "Range#create called with invalid arguments");
     Ruff.info_id := "ruff" |}.

(** Writes a JSON text with apostrophes for its double quotes. *)
Fixpoint requote (s : string) : string :=
  match s with
  | String c rest => String (if Ascii.eqb c "'" then dquote else c) (requote rest)
  | EmptyString => EmptyString
  end.

(** Two entries as ruff prints them: the one quoted in the source, which
    carries a fix, and one without. *)
Definition sample_output : string :=
  requote
    "[{'code': 'F401', 'message': '`numpy` imported but unused', 'fix': {'content': '', 'location': {'row': 3, 'column': 0}, 'end_location': {'row': 4, 'column': 0}}, 'location': {'row': 3, 'column': 8}, 'end_location': {'row': 3, 'column': 19}, 'filename': '/path/to/bug.py'}, {'code': 'E501', 'message': 'Line too long', 'fix': null, 'location': {'row': 7, 'column': 89}, 'end_location': {'row': 7, 'column': 120}, 'filename': '/path/to/bug.py'}]".

Definition sample_parsed : list JsValue :=
  match JSON_parse sample_output with
  | inr (JArr elems) => elems
  | _ => []
  end.

(** Three entries, the second of which lacks its locations. *)
Definition incomplete_output : string :=
  requote
    "[{'code': 'F841', 'message': 'Local variable `x` is assigned to but never used', 'fix': null, 'location': {'row': 2, 'column': 5}, 'end_location': {'row': 2, 'column': 6}, 'filename': '/path/to/bug.py'}, {'code': 'E501', 'message': 'Line too long'}, {'code': 'E501', 'message': 'Line too long', 'fix': null, 'location': {'row': 7, 'column': 89}, 'end_location': {'row': 7, 'column': 120}, 'filename': '/path/to/bug.py'}]".

Definition incomplete_parsed : list JsValue :=
  match JSON_parse incomplete_output with
  | inr (JArr elems) => elems
  | _ => []
  end.

Definition sample_entries : list Ruff.IRuffLintMessage :=
  [ {| Ruff.kind := JUndefined;
       Ruff.code := "F401";
       Ruff.message := "`numpy` imported but unused";
       Ruff.fix_ := Some {| Ruff.content := "";
                            Ruff.fix_location := {| Ruff.row := 3; Ruff.column := 0 |};
                            Ruff.fix_end_location := {| Ruff.row := 4; Ruff.column := 0 |} |};
       Ruff.location := {| Ruff.row := 3; Ruff.column := 8 |};
       Ruff.end_location := {| Ruff.row := 3; Ruff.column := 19 |};
       Ruff.filename := "/path/to/bug.py" |};
    {| Ruff.kind := JUndefined;
       Ruff.code := "E501";
       Ruff.message := "Line too long";
       Ruff.fix_ := None;
       Ruff.location := {| Ruff.row := 7; Ruff.column := 89 |};
       Ruff.end_location := {| Ruff.row := 7; Ruff.column := 120 |};
       Ruff.filename := "/path/to/bug.py" |} ].

End Node.

(** ** JavaScript string methods used by the resolver

    A string is held as its UTF-8 bytes, the way files and pipes hold the
    text that [toString()] and [encoding: 'utf8'] decode; the text is
    taken to be well-formed UTF-8.  The methods that look for ASCII text
    ([split], [includes], [startsWith], [replace]) are the same on the
    bytes as on the characters.  [trim] removes every character that is
    a white space or a line terminator of the language, from both ends:
    TAB, LF, VT, FF, CR, SP, U+00A0, U+1680, U+2000 to U+200A, U+2028,
    U+2029, U+202F, U+205F, U+3000 and U+FEFF, each in its UTF-8 encoding
    of one, two or three bytes. *)

Module JsString.

(** TAB, LF, VT, FF, CR and SP. *)
Definition is_space (c : ascii) : bool :=
  let n := nat_of_ascii c in
  ((9 <=? n)%nat && (n <=? 13)%nat) || (n =? 32)%nat.

(** U+00A0 (no-break space). *)
Definition is_space2 (a b : ascii) : bool :=
  (nat_of_ascii a =? 194)%nat && (nat_of_ascii b =? 160)%nat.

(** U+1680, U+2000 to U+200A, U+2028, U+2029, U+202F, U+205F, U+3000 and
    U+FEFF (the byte order mark). *)
Definition is_space3 (a b c : ascii) : bool :=
  let x := nat_of_ascii a in
  let y := nat_of_ascii b in
  let z := nat_of_ascii c in
  ((x =? 225)%nat && (y =? 154)%nat && (z =? 128)%nat)
  || ((x =? 226)%nat && (y =? 128)%nat
      && (((128 <=? z)%nat && (z <=? 138)%nat)
          || (z =? 168)%nat || (z =? 169)%nat || (z =? 175)%nat))
  || ((x =? 226)%nat && (y =? 129)%nat && (z =? 159)%nat)
  || ((x =? 227)%nat && (y =? 128)%nat && (z =? 128)%nat)
  || ((x =? 239)%nat && (y =? 187)%nat && (z =? 191)%nat).

(** Removes the white space a byte sequence starts with; [p1], [p2] and
    [p3] recognise the encodings of one, two and three bytes. *)
Fixpoint strip (p1 : ascii -> bool) (p2 : ascii -> ascii -> bool)
    (p3 : ascii -> ascii -> ascii -> bool) (l : list ascii) : list ascii :=
  match l with
  | [] => []
  | a :: l1 =>
      if p1 a then strip p1 p2 p3 l1
      else
        match l1 with
        | [] => l
        | b :: l2 =>
            if p2 a b then strip p1 p2 p3 l2
            else
              match l2 with
              | [] => l
              | c :: l3 => if p3 a b c then strip p1 p2 p3 l3 else l
              end
        end
  end.

Definition trimStart (s : string) : string :=
  string_of_list_ascii (strip is_space is_space2 is_space3 (list_ascii_of_string s)).

(** [trimEnd] reads the bytes from the last one backwards. *)
Definition trimEnd (s : string) : string :=
  string_of_list_ascii
    (rev (strip is_space (fun a b => is_space2 b a) (fun a b c => is_space3 c b a)
                (rev (list_ascii_of_string s)))).

Definition trim (s : string) : string := trimEnd (trimStart s).

(** [s.startsWith(p)] *)
Definition startsWith (s p : string) : bool := String.prefix p s.

(** [s.includes(sub)], that is [s.indexOf(sub) !== -1] *)
Fixpoint includes (s sub : string) : bool :=
  String.prefix sub s ||
  match s with
  | String _ rest => includes rest sub
  | EmptyString => false
  end.

Fixpoint drop (n : nat) (s : string) : string :=
  match n, s with
  | S n', String _ rest => drop n' rest
  | _, _ => s
  end.

(** [s.replace(/sub/, '')] for a pattern that matches the text [sub]
    literally: the first occurrence is removed. *)
Fixpoint remove_first (sub s : string) : string :=
  if String.prefix sub s then drop (String.length sub) s
  else match s with
       | String c rest => String c (remove_first sub rest)
       | EmptyString => EmptyString
       end.

(** [s.split(sep)] for a one-character separator: never empty. *)
Fixpoint split (sep : ascii) (s : string) : list string :=
  match s with
  | EmptyString => [EmptyString]
  | String c rest =>
      if Ascii.eqb c sep then EmptyString :: split sep rest
      else match split sep rest with
           | first :: others => String c first :: others
           | [] => [String c EmptyString]
           end
  end.

Definition newline : ascii := ascii_of_nat 10.

(** A string is truthy when it is not empty. *)
Definition nonempty (s : string) : bool := negb (String.eqb s "").

End JsString.

(** ** The POSIX flavour of Node's [path] module *)

Module PosixPath.

Definition sep : string := "/".

Definition is_sep (c : ascii) : bool := Ascii.eqb c "/".

Fixpoint drop_while (f : ascii -> bool) (l : list ascii) : list ascii :=
  match l with
  | c :: rest => if f c then drop_while f rest else l
  | [] => []
  end.

Fixpoint take_while (f : ascii -> bool) (l : list ascii) : list ascii :=
  match l with
  | c :: rest => if f c then c :: take_while f rest else []
  | [] => []
  end.

(** [path.basename(p)]: the last segment, trailing separators ignored. *)
Definition basename (p : string) : string :=
  let r := drop_while is_sep (rev (list_ascii_of_string p)) in
  string_of_list_ascii (rev (take_while (fun c => negb (is_sep c)) r)).

(** [path.dirname(p)]: the loop of the library runs from the last
    character down to the second one, skips trailing separators, then the
    last segment, and stops on the separator before it, at index [end]. *)
Definition dirname (p : string) : string :=
  let chars := list_ascii_of_string p in
  match chars with
  | [] => "."
  | c0 :: others =>
      let hasRoot := is_sep c0 in
      let r := drop_while (fun c => negb (is_sep c)) (drop_while is_sep (rev others)) in
      match r with
      | [] => if hasRoot then "/" else "."
      | _ :: _ =>
          let end_ := length r in
          if hasRoot && (end_ =? 1)%nat then "//"
          else string_of_list_ascii (take end_ chars)
      end
  end.

Definition segments (p : string) : list string :=
  JsString.split "/" p.

(** One step of [normalizeString]; [res] holds the segments kept so far,
    last first. *)
Definition normalize_step (allowAboveRoot : bool) (res : list string)
    (seg : string) : list string :=
  if String.eqb seg "" || String.eqb seg "." then res
  else if String.eqb seg ".." then
    match res with
    | last :: before =>
        if String.eqb last ".." then
          (if allowAboveRoot then ".." :: res else res)
        else before
    | [] => if allowAboveRoot then [".."] else []
    end
  else seg :: res.

Fixpoint join_with (sep : string) (l : list string) : string :=
  match l with
  | [] => ""
  | [x] => x
  | x :: rest => x ++ sep ++ join_with sep rest
  end.

Definition last_is_sep (p : string) : bool :=
  match rev (list_ascii_of_string p) with
  | c :: _ => is_sep c
  | [] => false
  end.

Definition normalize (p : string) : string :=
  if String.eqb p "" then "."
  else
    let isAbsolute := String.prefix "/" p in
    let trailingSeparator := last_is_sep p in
    let kept := fold_left (normalize_step (negb isAbsolute)) (segments p) [] in
    let body := join_with "/" (rev kept) in
    if String.eqb body "" then
      (if isAbsolute then "/" else if trailingSeparator then "./" else ".")
    else
      let body := if trailingSeparator then body ++ "/" else body in
      if isAbsolute then "/" ++ body else body.

(** [path.join(...parts)] *)
Definition join (parts : list string) : string :=
  match filter (fun a => JsString.nonempty a = true) parts with
  | [] => "."
  | kept => normalize (join_with "/" kept)
  end.

(** [path.isAbsolute(p)] *)
Definition isAbsolute (p : string) : bool := String.prefix "/" p.

(** The loop of [path.resolve]: arguments are taken from the last one
    backwards until the path built is absolute. *)
Fixpoint resolve_from (reversed : list string) (resolvedPath : string) : string :=
  match reversed with
  | [] => resolvedPath
  | a :: rest =>
      if String.eqb a "" then resolve_from rest resolvedPath
      else if isAbsolute a then a ++ "/" ++ resolvedPath
      else resolve_from rest (a ++ "/" ++ resolvedPath)
  end.

(** [path.resolve(...args)] in a process whose working directory is
    [cwd]. *)
Definition resolve (cwd : string) (args : list string) : string :=
  let resolvedPath := resolve_from (rev (cwd :: args)) "" in
  let resolvedAbsolute := isAbsolute resolvedPath in
  let body :=
    join_with "/" (rev (fold_left (normalize_step (negb resolvedAbsolute))
                                  (segments resolvedPath) [])) in
  if resolvedAbsolute then "/" ++ body
  else if String.eqb body "" then "." else body.

End PosixPath.

(** ** [src/configSettings.ts] *)

Declare Scope host_scope.
Delimit Scope host_scope with host.

Module Config.

(** *** The host: file system, child processes, search path *)

(** A call that leaves the process. *)
Inductive Call : Type :=
| ExistsSync (p : string)
| ReadFileSync (p : string)
| ReaddirSync (p : string)
| SpawnSync (command : string) (args : list string) (cwd : option string)
| WhichSync (command : string).

(** What the program cannot change: the platform, the [path] module that
    goes with it, the files, and what a child process prints given the
    environment it inherits.  [spawnSync] gives the [stdout] member of the
    result, [None] being [null] (the process could not be started). *)
Record Host : Type := {
  win32 : bool;
  path_sep : string;
  path_join : list string -> string;
  path_basename : string -> string;
  path_dirname : string -> string;
  homeDirectory : string;
  fs_existsSync : string -> bool;
  fs_readFileSync : string -> JsResult string;
  fs_readdirSync : string -> JsResult (list string);
  child_process_spawnSync :
    gmap string string -> string -> list string -> option string
    -> JsResult (option string);
  which_sync_nothrow : gmap string string -> string -> option string;
  (** [systemVariables.resolve] of [./systemVariables], for a
      workspace root. *)
  systemVariables_resolve : string -> string -> string;
}.

(** What the program changes: [process.env], and what it leaves behind:
    the calls made and the errors written with [console.error]. *)
Record World : Type := {
  env : gmap string string;
  calls : list Call;
  console : list Thrown;
}.

(** A computation that may throw, in a world. *)
Definition M (A : Type) : Type := World -> JsResult A * World.

Definition ret {A} (a : A) : M A := fun w => (inr a, w).

Definition raise {A} (e : Thrown) : M A := fun w => (inl e, w).

Definition and_then {A B} (m : M A) (k : A -> M B) : M B :=
  fun w =>
    match m w with
    | (inr a, w') => k a w'
    | (inl e, w') => (inl e, w')
    end.

(** [try { m } catch (e) { handler e }] *)
Definition try_catch {A} (m : M A) (handler : Thrown -> M A) : M A :=
  fun w =>
    match m w with
    | (inr a, w') => (inr a, w')
    | (inl e, w') => handler e w'
    end.

Definition lift {A} (r : JsResult A) : M A := fun w => (r, w).

Definition record (c : Call) : M unit :=
  fun w => (inr tt, {| env := env w; calls := (calls w ++ [c])%list; console := console w |}).

(** [process.env[name]] *)
Definition getenv (name : string) : M (option string) :=
  fun w => (inr (env w !! name), w).

(** [process.env[name] = value] *)
Definition setenv (name value : string) : M unit :=
  fun w => (inr tt, {| env := <[name := value]> (env w); calls := calls w; console := console w |}).

Definition console_error (e : Thrown) : M unit :=
  fun w => (inr tt, {| env := env w; calls := calls w; console := (console w ++ [e])%list |}).

Definition current_env : M (gmap string string) :=
  fun w => (inr (env w), w).

(** A variable of the environment is truthy when set to a non-empty
    string. *)
Definition set_to (o : option string) : option string :=
  match o with
  | Some v => if JsString.nonempty v then Some v else None
  | None => None
  end.

Notation "x <- m ;; k" := (and_then m (fun x => k))
  (at level 100, m at next level, right associativity) : host_scope.
Notation "m ;;; k" := (and_then m (fun _ => k))
  (at level 100, right associativity) : host_scope.

Local Open Scope host_scope.

Record PythonSettings : Type := {
  workspaceRoot : string;
  _pythonPath : string;
  _configPythonPath : string;
  _stdLibs : list string;
  _configStdLibs : list string;
}.

Section Resolver.

Variable h : Host.

Definition existsSync (p : string) : M bool :=
  record (ExistsSync p) ;;; ret (fs_existsSync h p).

Definition readFileSync (p : string) : M string :=
  record (ReadFileSync p) ;;; lift (fs_readFileSync h p).

Definition readdirSync (p : string) : M (list string) :=
  record (ReaddirSync p) ;;; lift (fs_readdirSync h p).

(** [child_process.spawnSync(command, args, { encoding: 'utf8', cwd }).stdout] *)
Definition spawnSync_stdout (command : string) (args : list string)
    (cwd : option string) : M (option string) :=
  record (SpawnSync command args cwd) ;;;
  e <- current_env ;;
  lift (child_process_spawnSync h e command args cwd).

(** [stdout.trim()], which throws when [stdout] is [null] *)
Definition stdout_trim (stdout : option string) : M string :=
  match stdout with
  | Some out => ret (JsString.trim out)
  | None =>
      raise (ThrownError "TypeError" "Cannot read properties of null (reading 'trim')")
  end.

(** [which.sync(command, { nothrow: true })] *)
Definition which_sync (command : string) : M (option string) :=
  record (WhichSync command) ;;;
  e <- current_env ;;
  ret (which_sync_nothrow h e command).

Definition pythonBinPath (p : string) : string :=
  if win32 h then path_join h [p; "Scripts"; "python.exe"]
  else path_join h [p; "bin"; "python"].

Definition pythonBinFromPath (p : string) : M (option string) :=
  let fullPath := pythonBinPath p in
  b <- existsSync fullPath ;;
  ret (if b then Some fullPath else None).

(** The loop over the lines [poetry env list] printed; [info] is the
    variable of the same name. *)
Fixpoint poetry_info (items : list string) (info : string) : string :=
  match items with
  | [] => info
  | item :: rest =>
      if JsString.includes item "(Activated)"
      then JsString.trim (JsString.remove_first "(Activated)" item)
      else poetry_info rest item
  end.

(** The loop over the entries of the workspace root. *)
Fixpoint workspace_venv (root : string) (files : list string) : M (option string) :=
  match files with
  | [] => ret None
  | file :: rest =>
      let x := path_join h [root; file] in
      b <- existsSync (path_join h [x; "pyvenv.cfg"]) ;;
      if b then pythonBinFromPath x else workspace_venv root rest
  end.

Definition probe_workspace (root : string) : M (option string) :=
  files <- readdirSync root ;;
  workspace_venv root files.

Definition probe_poetry (root : string) : M (option string) :=
  b <- existsSync (path_join h [root; "poetry.lock"]) ;;
  if b then
    out <- spawnSync_stdout "poetry" ["env"; "list"; "--full-path"; "--no-ansi"] (Some root) ;;
    list <- stdout_trim out ;;
    let info := poetry_info (JsString.split JsString.newline list) "" in
    if JsString.nonempty info then pythonBinFromPath info
    else probe_workspace root
  else probe_workspace root.

Definition probe_pipenv (root : string) : M (option string) :=
  b <- existsSync (path_join h [root; "Pipfile"]) ;;
  if b then
    out <- spawnSync_stdout "pipenv" ["--py"] None ;;
    py <- stdout_trim out ;;
    ret (Some py)
  else probe_poetry root.

Definition first_line (content : string) : string :=
  hd "" (JsString.split JsString.newline (JsString.trim content)).

Definition probe_pyenv (root : string) : M (option string) :=
  let p := path_join h [root; ".python-version"] in
  b <- existsSync p ;;
  if b then
    v <- getenv "PYENV_VERSION" ;;
    match set_to v with
    | None =>
        content <- readFileSync p ;;
        setenv "PYENV_VERSION" (first_line content)
    | Some _ => ret tt
    end ;;;
    ret None
  else probe_pipenv root.

Definition probe_conda (root : string) : M (option string) :=
  conda <- getenv "CONDA_PREFIX" ;;
  match set_to conda with
  | Some prefix => pythonBinFromPath prefix
  | None => probe_pyenv root
  end.

Definition probe_virtualenv (root : string) : M (option string) :=
  venv <- getenv "VIRTUAL_ENV" ;;
  match set_to venv with
  | Some dir =>
      b <- existsSync (path_join h [dir; "pyvenv.cfg"]) ;;
      if b then pythonBinFromPath dir else probe_conda root
  | None => probe_conda root
  end.

(** The [catch] handler of [resolvePythonFromVENV]. *)
Definition log_and_give_up (e : Thrown) : M (option string) :=
  console_error e ;;; ret None.

(** [resolvePythonFromVENV]: [None] is [undefined]. *)
Definition resolvePythonFromVENV (root : string) : M (option string) :=
  try_catch (probe_virtualenv root) log_and_give_up.

(** [untildify(p)]: a leading [~] that stands alone or before a
    separator becomes the home directory, when there is one. *)
Definition untildify (p : string) : string :=
  if JsString.nonempty (homeDirectory h) then
    match p with
    | String "~" rest =>
        if String.eqb rest "" || String.prefix "/" rest || String.prefix "\" rest
        then homeDirectory h ++ rest
        else p
    | _ => p
    end
  else p.

Definition isValidPythonPath (pythonPath : string) : M bool :=
  try_catch
    (out <- spawnSync_stdout pythonPath ["-c"; "print(1234)"] None ;;
     match out with
     | Some stdout => ret (JsString.startsWith stdout "1234")
     | None =>
         raise (ThrownError "TypeError"
                  "Cannot read properties of null (reading 'startsWith')")
     end)
    (fun _ => ret false).

(** The test that sends the path to [which]. *)
Definition only_python (pythonPath : string) : bool :=
  String.eqb pythonPath "python"
  || negb (JsString.includes pythonPath (path_sep h))
  || String.eqb (path_basename h pythonPath) (path_dirname h pythonPath).

Definition getPythonExecutable (pythonPath : string) : M string :=
  let pythonPath := untildify pythonPath in
  pythonPath <-
    (if only_python pythonPath then
       bin <- which_sync pythonPath ;;
       ret (match set_to bin with
            | Some bin => bin
            | None => pythonPath
            end)
     else ret pythonPath) ;;
  valid <- isValidPythonPath pythonPath ;;
  if valid then ret pythonPath else ret pythonPath.

Definition getStdLibs (pythonPath : string) : M (list string) :=
  try_catch
    (out <- spawnSync_stdout pythonPath
              ["-c"; "import site;print(site.getsitepackages()[0])"] None ;;
     sitePkgs <- stdout_trim out ;;
     out <- spawnSync_stdout pythonPath
              ["-c"; "import site;print(site.getusersitepackages())"] None ;;
     userPkgs <- stdout_trim out ;;
     ret [sitePkgs; userPkgs])
    (fun _ => ret []).

Definition with_pythonPath (this : PythonSettings) (p : string) : PythonSettings :=
  {| workspaceRoot := workspaceRoot this;
     _pythonPath := p;
     _configPythonPath := _configPythonPath this;
     _stdLibs := _stdLibs this;
     _configStdLibs := _configStdLibs this |}.

Definition with_stdLibs (this : PythonSettings) (l : list string) : PythonSettings :=
  {| workspaceRoot := workspaceRoot this;
     _pythonPath := _pythonPath this;
     _configPythonPath := _configPythonPath this;
     _stdLibs := l;
     _configStdLibs := _configStdLibs this |}.

Definition with_configPythonPath (this : PythonSettings) (p : string) : PythonSettings :=
  {| workspaceRoot := workspaceRoot this;
     _pythonPath := _pythonPath this;
     _configPythonPath := p;
     _stdLibs := _stdLibs this;
     _configStdLibs := _configStdLibs this |}.

Definition with_configStdLibs (this : PythonSettings) (l : list string) : PythonSettings :=
  {| workspaceRoot := workspaceRoot this;
     _pythonPath := _pythonPath this;
     _configPythonPath := _configPythonPath this;
     _stdLibs := _stdLibs this;
     _configStdLibs := l |}.

(** [set pythonPath(value)] *)
Definition set_pythonPath (value : string) (this : PythonSettings) : M PythonSettings :=
  if String.eqb (_pythonPath this) value then ret this
  else
    try_catch
      (p <- getPythonExecutable value ;;
       let this := with_pythonPath this p in
       libs <- getStdLibs (_pythonPath this) ;;
       ret (with_stdLibs this libs))
      (fun _ => ret (with_pythonPath this value)).

(** [set configPythonPath(value)] *)
Definition set_configPythonPath (value : string) (this : PythonSettings) : M PythonSettings :=
  if String.eqb (_configPythonPath this) value then ret this
  else
    try_catch
      (p <- getPythonExecutable value ;;
       let this := with_configPythonPath this p in
       libs <- getStdLibs (_configPythonPath this) ;;
       ret (with_configStdLibs this libs))
      (fun _ => ret (with_configPythonPath this value)).

(** The first two statements of [update], which settle the interpreter;
    [configured] is [pythonSettings.get('pythonPath')].  The statements
    after them copy the linting, formatting and import-sorting settings
    and touch neither field. *)
Definition update (configured : string) (this : PythonSettings) : M PythonSettings :=
  let resolve := systemVariables_resolve h (workspaceRoot this) in
  vp <- resolvePythonFromVENV (workspaceRoot this) ;;
  this <- set_pythonPath
            (match set_to vp with
             | Some vp => vp
             | None => resolve configured
             end) this ;;
  set_configPythonPath (resolve configured) this.

(** The world after further calls. *)
Definition called (w : World) (cs : list Call) : World :=
  {| env := env w; calls := (calls w ++ cs)%list; console := console w |}.

(** The virtualenv probe does not match: [VIRTUAL_ENV] is not set, or
    the directory it names has no [pyvenv.cfg] (which costs one
    call). *)
Definition virtualenv_misses (w : World) : Prop :=
  match set_to (env w !! "VIRTUAL_ENV") with
  | Some dir => fs_existsSync h (path_join h [dir; "pyvenv.cfg"]) = false
  | None => True
  end.

Definition virtualenv_calls (w : World) : list Call :=
  match set_to (env w !! "VIRTUAL_ENV") with
  | Some dir => [ExistsSync (path_join h [dir; "pyvenv.cfg"])]
  | None => []
  end.

End Resolver.

End Config.

(** ** The rest of [src/configSettings.ts]: instances and tool paths *)

Module Settings.

Import Config.
Local Open Scope host_scope.

(** What the host editor tells about the workspace: [workspace.root]
    (empty when there is none), the names of [workspace.workspaceFolders],
    the directory of the extension ([__dirname]), and the [pythonPath] of
    the configuration section [python].

    [tool_settings] stands for the sections [linting], [formatting] and
    [sortImports] of that configuration, as the outcome of the statements
    of [update] that copy them (lines 120 to 155): each section goes
    through [systemVariables.resolveAny] into the settings and every tool
    path through [getAbsolutePath].  These statements read no file, start
    no process, and write neither the environment nor one of the five
    fields of [PythonSettings] above; they return, or they throw (a
    section that is missing leaves [this.linting] undefined, and the read
    of its [pylintPath] is a [TypeError]). *)
Record Workspace : Type := {
  workspace_root : string;
  workspaceFolders : list string;
  extension_dirname : string;
  configuration_pythonPath : string;
  tool_settings : JsResult unit;
}.

Section Instances.

Variable h : Host.

(** The whole of [update]: its first two statements, which settle the
    interpreter ([Config.update]), and then the copy of the tool
    settings.  What the copy throws, [update] throws, after the
    interpreter is settled. *)
Definition update_settings (ws : Workspace) (this : PythonSettings) : M PythonSettings :=
  this <- update h (configuration_pythonPath ws) this ;;
  lift (tool_settings ws) ;;;
  ret this.

(** [new PythonSettings()]: the field initialisers, the constructor, and
    [initialize], which calls [update]; an error of [update] leaves the
    constructor as it is thrown.  The subscription [initialize] registers
    with the host is run by [onDidChangeConfiguration] below. *)
Definition new_PythonSettings (ws : Workspace) : M PythonSettings :=
  let this :=
    {| workspaceRoot :=
         if JsString.nonempty (workspace_root ws) then workspace_root ws
         else extension_dirname ws;
       _pythonPath := "";
       _configPythonPath := "";
       _stdLibs := [];
       _configStdLibs := [] |} in
  update_settings ws this.

(** The handler [initialize] subscribes: [affects] is
    [event.affectsConfiguration('python')]. *)
Definition onDidChangeConfiguration (affects : bool) (ws : Workspace)
    (this : PythonSettings) : M PythonSettings :=
  if affects then update_settings ws this else ret this.

(** The key of an instance: the name of the first workspace folder. *)
Definition workspaceFolderKey (ws : Workspace) : string :=
  match workspaceFolders ws with
  | name :: _ => name
  | [] => "unknown"
  end.

(** [PythonSettings.getInstance()], with the static map
    [PythonSettings.pythonSettings] passed in and out; when the
    constructor throws, the map is as it was. *)
Definition getInstance (ws : Workspace) (pythonSettings : gmap string PythonSettings)
    : M (PythonSettings * gmap string PythonSettings) :=
  let key := workspaceFolderKey ws in
  match pythonSettings !! key with
  | Some settings => ret (settings, pythonSettings)
  | None =>
      settings <- new_PythonSettings ws ;;
      ret (settings, <[key := settings]> pythonSettings)
  end.

(** [PythonSettings.dispose()]: what is left of the static map. *)
Definition dispose (pythonSettings : gmap string PythonSettings)
    : gmap string PythonSettings := ∅.

End Instances.

Section AbsolutePath.

Variable h : Host.
(** [path.isAbsolute] and [path.resolve(rootDir, p)] *)
Variable path_isAbsolute : string -> bool.
Variable path_resolve : string -> string -> string.

(** [getAbsolutePath(pathToCheck, rootDir?)]; a missing or empty
    [rootDir] is the workspace root. *)
Definition getAbsolutePath (this : PythonSettings) (pathToCheck : string)
    (rootDir : option string) : string :=
  let rootDir :=
    match set_to rootDir with
    | Some dir => dir
    | None => workspaceRoot this
    end in
  let pathToCheck := untildify h pathToCheck in
  if negb (JsString.includes pathToCheck (path_sep h)) then pathToCheck
  else if path_isAbsolute pathToCheck then pathToCheck
  else path_resolve rootDir pathToCheck.

End AbsolutePath.

(** *** What a computation leaves alone *)

(** The environment after the computation is related by [R] to the one
    before. *)
Definition env_related (R : gmap string string -> gmap string string -> Prop)
    {A} (m : M A) : Prop :=
  forall w, R (env w) (env (m w).2).

(** From one environment to a later one, at most the pyenv hint was
    recorded: every other variable is as before, and so is
    [PYENV_VERSION] when it was set already. *)
Definition hint_only (before after : gmap string string) : Prop :=
  (forall other, other <> "PYENV_VERSION" -> after !! other = before !! other) /\
  (forall v, set_to (before !! "PYENV_VERSION") = Some v -> after = before).

End Settings.

(** ** A POSIX host for the examples

    Files, directory listings, process outputs and the search path are
    given as tables; [systemVariables.resolve] leaves a setting without
    variables as it is. *)

Module Sample.

Fixpoint lookup_table {A} (k : string) (table : list (string * A)) : option A :=
  match table with
  | [] => None
  | (k', a) :: rest => if String.eqb k k' then Some a else lookup_table k rest
  end.

Definition ENOENT {A} : JsResult A :=
  throw (ThrownError "Error" "ENOENT: no such file or directory").

Definition command_line (command : string) (args : list string) : string :=
  PosixPath.join_with " " (command :: args).

Definition host (home : string) (files : list string)
    (contents : list (string * string))
    (listings : list (string * list string))
    (outputs : list (string * string))
    (search_path : list (string * string)) : Config.Host :=
  {| Config.win32 := false;
     Config.path_sep := PosixPath.sep;
     Config.path_join := PosixPath.join;
     Config.path_basename := PosixPath.basename;
     Config.path_dirname := PosixPath.dirname;
     Config.homeDirectory := home;
     Config.fs_existsSync := fun p => existsb (String.eqb p) files;
     Config.fs_readFileSync := fun p =>
       match lookup_table p contents with
       | Some c => ok c
       | None => ENOENT
       end;
     Config.fs_readdirSync := fun p =>
       match lookup_table p listings with
       | Some l => ok l
       | None => ENOENT
       end;
     Config.child_process_spawnSync := fun _ command args _ =>
       ok (lookup_table (command_line command args) outputs);
     Config.which_sync_nothrow := fun _ command => lookup_table command search_path;
     Config.systemVariables_resolve := fun _ setting => setting |}.

Definition world (vars : list (string * string)) : Config.World :=
  {| Config.env := list_to_map vars; Config.calls := []; Config.console := [] |}.

Definition settings (root : string) : Config.PythonSettings :=
  {| Config.workspaceRoot := root;
     Config._pythonPath := "";
     Config._configPythonPath := "";
     Config._stdLibs := [];
     Config._configStdLibs := [] |}.

(** A virtualenv and a conda environment, both usable. *)
Definition venv_host : Config.Host :=
  host "/home/u" ["/env/pyvenv.cfg"; "/env/bin/python"; "/conda/bin/python"] [] [] [] [].

(** The same, with the interpreter of the virtualenv gone. *)
Definition broken_venv_host : Config.Host :=
  host "/home/u" ["/env/pyvenv.cfg"; "/conda/bin/python"] [] [] [] [].

Definition venv_world : Config.World :=
  world [("VIRTUAL_ENV", "/env"); ("CONDA_PREFIX", "/conda")].

(** A workspace that [pyenv local] has pinned. *)
Definition pyenv_host : Config.Host :=
  host "/home/u" ["/w/.python-version"]
       [("/w/.python-version", "3.11.2
3.10
")] [] [] [].

Definition pyenv_shell_world : Config.World :=
  world [("PYENV_VERSION", "3.8.0")].

(** A poetry project, with what [poetry env list] prints. *)
Definition poetry_host (stdout : string) : Config.Host :=
  host "/home/u"
       ["/w/poetry.lock"; "/cache/b-py3.11/bin/python";
        "/w/.venv/pyvenv.cfg"; "/w/.venv/bin/python"]
       [] [("/w", [".venv"; "src"])]
       [("poetry env list --full-path --no-ansi", stdout)] [].

Definition poetry_listing : string :=
  "/cache/a-py3.9
/cache/b-py3.11 (Activated)
/cache/c-py3.12
".

(** A pipenv project. *)
Definition pipenv_host : Config.Host :=
  host "/home/u" ["/w/Pipfile"] [] []
       [("pipenv --py", "/home/u/.virtualenvs/w-x1/bin/python
")] [].

(** A workspace with a virtualenv of its own, listed after a source
    directory, and a second one listed later. *)
Definition workspace_host : Config.Host :=
  host "/home/u"
       ["/w/.venv/pyvenv.cfg"; "/w/.venv/bin/python";
        "/w/old-env/pyvenv.cfg"; "/w/old-env/bin/python"]
       [] [("/w", ["src"; ".venv"; "old-env"])] [] [].

(** A workspace without any environment. *)
Definition plain_host : Config.Host :=
  host "/home/u" [] [] [("/w", ["src"; "README.md"])] [] [].

(** A poetry project on a machine without poetry. *)
Definition poetry_missing_host : Config.Host :=
  host "/home/u" ["/w/poetry.lock"; "/w/.venv/pyvenv.cfg"; "/w/.venv/bin/python"]
       [] [("/w", [".venv"])] [] [].

(** What the editor reports for the workspace [/w], and for another
    folder of the same name elsewhere. *)
Definition workspace : Settings.Workspace :=
  {| Settings.workspace_root := "/w";
     Settings.workspaceFolders := ["w"];
     Settings.extension_dirname := "/home/u/.config/coc/extensions/node_modules/coc-pyright/lib";
     Settings.configuration_pythonPath := "python";
     Settings.tool_settings := ok tt |}.

Definition other_workspace : Settings.Workspace :=
  {| Settings.workspace_root := "/elsewhere/w";
     Settings.workspaceFolders := ["w"; "docs"];
     Settings.extension_dirname := "/home/u/.config/coc/extensions/node_modules/coc-pyright/lib";
     Settings.configuration_pythonPath := "python3";
     Settings.tool_settings := ok tt |}.

(** A workspace whose configuration has no section [linting]. *)
Definition unconfigured_workspace : Settings.Workspace :=
  {| Settings.workspace_root := "/w";
     Settings.workspaceFolders := ["w"];
     Settings.extension_dirname := "/home/u/.config/coc/extensions/node_modules/coc-pyright/lib";
     Settings.configuration_pythonPath := "python";
     Settings.tool_settings :=
       TypeError "Cannot read properties of undefined (reading 'pylintPath')" |}.

(** U+00A0 and U+FEFF as files hold them. *)
Definition no_break_space : string :=
  String (ascii_of_nat 194) (String (ascii_of_nat 160) EmptyString).

Definition byte_order_mark : string :=
  String (ascii_of_nat 239) (String (ascii_of_nat 187) (String (ascii_of_nat 191) EmptyString)).

(** The letter a with a grave accent (U+00E0), whose second byte is the
    second byte of U+00A0. *)
Definition a_grave : string :=
  String (ascii_of_nat 195) (String (ascii_of_nat 160) EmptyString).

(** [path.resolve(rootDir, p)] in a process started in [/]. *)
Definition path_resolve (rootDir p : string) : string :=
  PosixPath.resolve "/" [rootDir; p].

(** Settings with an interpreter already resolved. *)
Definition cached_settings : Config.PythonSettings :=
  {| Config.workspaceRoot := "/w";
     Config._pythonPath := "/usr/bin/python3";
     Config._configPythonPath := "/usr/bin/python3";
     Config._stdLibs := ["/usr/lib/python3/dist-packages"; "/home/u/.local/lib/python3.11/site-packages"];
     Config._configStdLibs := [] |}.

(** The workspace whose configuration names that interpreter. *)
Definition cached_workspace : Settings.Workspace :=
  {| Settings.workspace_root := "/w";
     Settings.workspaceFolders := ["w"];
     Settings.extension_dirname := "/home/u/.config/coc/extensions/node_modules/coc-pyright/lib";
     Settings.configuration_pythonPath := "/usr/bin/python3";
     Settings.tool_settings := ok tt |}.

(** [python] is on the search path and runs; the search would also
    answer for the two longer names. *)
Definition path_host : Config.Host :=
  host "/home/u" [] [] []
       [("/usr/bin/python3 -c print(1234)", "1234
")]
       [("python", "/usr/bin/python3");
        ("python/python", "/usr/bin/python3");
        ("/opt/python/python", "/usr/bin/python3")].

End Sample.

(** * Theorems *)

(** ** The result type *)

Lemma bind_ok_inv {A B : Type} (m : JsResult A) (k : A -> JsResult B) (b : B) :
  Js.bind m k = inr b -> exists a, m = inr a /\ k a = inr b.
Proof. destruct m as [e | a]; simpl; [discriminate | eauto]. Qed.

Section JsFacts.

Context {A B : Type}.

Lemma map_elems_Forall2 (f : A -> JsResult B) (l : list A) (ys : list B) :
  map_elems f l = inr ys <-> Forall2 (fun x y => f x = inr y) l ys.
Proof.
  revert ys. induction l as [| x l IH]; intros ys; simpl.
  - split.
    + intros [= <-]. constructor.
    + intros H. inversion H. reflexivity.
  - split.
    + intros H. apply bind_ok_inv in H as (y & Hy & H).
      apply bind_ok_inv in H as (ys' & Hys & H).
      injection H as <-. constructor; [exact Hy | now apply IH].
    + intros H. inversion H as [| ? y ? ys' Hy Hys]; subst.
      rewrite Hy. simpl. apply IH in Hys. rewrite Hys. reflexivity.
Qed.

Lemma map_elems_lookup (f : A -> JsResult B) (l : list A) (ys : list B)
    (i : nat) (x : A) (y : B) :
  map_elems f l = inr ys -> l !! i = Some x -> ys !! i = Some y -> f x = inr y.
Proof.
  intros H Hx Hy. apply map_elems_Forall2 in H.
  exact (Forall2_lookup_lr _ _ _ _ _ _ H Hx Hy).
Qed.

End JsFacts.

(** ** The ruff adapter *)

Section RuffFacts.

Import Ruff.
Local Open Scope js_scope.

Variable rt : Runtime.

Lemma field_get (v x : JsValue) (name : string) :
  field v name = Some x -> get v name = inr x.
Proof. destruct v; simpl; try discriminate. now intros [= <-]. Qed.

Lemma field_as_num (v : JsValue) (name : string) (n : Z) :
  field v name ≫= as_num = Some n -> get v name = inr (JNum n).
Proof.
  destruct (field v name) as [x |] eqn:E; simpl; [| discriminate].
  destruct x; simpl; try discriminate. intros [= <-]. now apply field_get.
Qed.

Lemma field_as_str (v : JsValue) (name : string) (t : string) :
  field v name ≫= as_str = Some t -> get v name = inr (JStr t).
Proof.
  destruct (field v name) as [x |] eqn:E; simpl; [| discriminate].
  destruct x; simpl; try discriminate. intros [= <-]. now apply field_get.
Qed.

Lemma field_decode {T} (dec : JsValue -> option T) (v : JsValue) (name : string) (t : T) :
  field v name ≫= dec = Some t ->
  exists x, get v name = inr x /\ dec x = Some t.
Proof.
  destruct (field v name) as [x |] eqn:E; simpl; [| discriminate].
  intros H. exists x. split; [now apply field_get | exact H].
Qed.

Lemma decode_location_get (v : JsValue) (l : IRuffLocation) :
  decode_location v = Some l ->
  get v "row" = inr (JNum (row l)) /\ get v "column" = inr (JNum (column l)).
Proof.
  unfold decode_location. intros H.
  destruct (field v "row" ≫= as_num) as [r |] eqn:Er; simpl in H; [| discriminate].
  destruct (field v "column" ≫= as_num) as [c |] eqn:Ec; simpl in H; [| discriminate].
  injection H as <-. simpl. split; [now apply field_as_num | now apply field_as_num].
Qed.

Lemma decode_fix_truthy (v : JsValue) (f : IRuffFix) :
  decode_fix v = Some f -> truthy v = true.
Proof. destruct v; try discriminate. reflexivity. Qed.

(** On a fix that follows [IRuffFix], the conversion reads the four
    numbers and the text, and leaves the rest to the libraries. *)
Lemma fixToWorkspaceEdit_decoded (file fv : JsValue) (f : IRuffFix) :
  decode_fix fv = Some f ->
  fixToWorkspaceEdit rt file fv =
    (u <- Uri_parse_toString rt file ;;
     r <- Range_create rt (JNum (row (fix_location f) - 1))
                          (JNum (column (fix_location f)))
                          (JNum (row (fix_end_location f) - 1))
                          (JNum (column (fix_end_location f))) ;;
     ok (Some {| changes := {[ u := [TextEdit_replace r (JStr (content f))] ]} |})).
Proof.
  intros H. unfold fixToWorkspaceEdit.
  rewrite (decode_fix_truthy _ _ H). simpl negb. cbv iota.
  unfold decode_fix in H.
  destruct (field fv "content" ≫= as_str) as [t |] eqn:Et; simpl in H; [| discriminate].
  destruct (field fv "location" ≫= decode_location) as [l |] eqn:El; simpl in H; [| discriminate].
  destruct (field fv "end_location" ≫= decode_location) as [e |] eqn:Ee; simpl in H; [| discriminate].
  injection H as <-. simpl.
  apply field_as_str in Et.
  apply field_decode in El as (lv & Hlv & Hl).
  apply field_decode in Ee as (ev & Hev & He).
  apply decode_location_get in Hl as [Hlr Hlc].
  apply decode_location_get in He as [Her Hec].
  destruct (Uri_parse_toString rt file) as [err | u]; simpl; [reflexivity |].
  rewrite Hlv; simpl. rewrite Hlr; simpl. rewrite Hlc; simpl.
  rewrite Hev; simpl. rewrite Her; simpl. rewrite Hec; simpl.
  destruct (Range_create rt _ _ _ _) as [err | r]; simpl; [reflexivity |].
  rewrite Et. reflexivity.
Qed.

Lemma parse_entry_decoded (v : JsValue) (e : IRuffLintMessage) :
  decode_entry v = Some e ->
  parse_entry rt v =
    (edit <- decoded_fix rt e ;;
     ok {| msg_line := JNum (row (location e));
           msg_column := JNum (column (location e) - 1);
           msg_endLine := JNum (row (end_location e));
           msg_endColumn := JNum (column (end_location e));
           msg_code := JStr (code e);
           msg_message := JStr (message e);
           msg_type := "";
           msg_severity := Warning;
           msg_tags := if includes ["F401"; "F841"] (JStr (code e))
                       then [Unnecessary] else [];
           msg_provider := info_id rt;
           msg_file := JStr (filename e);
           msg_fix := edit |}).
Proof.
  intros H. unfold decode_entry in H.
  destruct (field v "kind") as [k |] eqn:Ek; simpl in H; [| discriminate].
  destruct (field v "code" ≫= as_str) as [c |] eqn:Ec; simpl in H; [| discriminate].
  destruct (field v "message" ≫= as_str) as [m |] eqn:Em; simpl in H; [| discriminate].
  destruct (field v "fix") as [fv |] eqn:Ef; [| discriminate].
  apply field_get in Ef.
  apply field_as_str in Ec, Em.
  set (fo := match fv with
             | JUndefined | JNull => Some None
             | _ => Some <$> decode_fix fv
             end) in H.
  destruct fo as [f |] eqn:Efo; simpl in H; [| discriminate].
  destruct (field v "location" ≫= decode_location) as [l |] eqn:El; simpl in H; [| discriminate].
  destruct (field v "end_location" ≫= decode_location) as [el |] eqn:Eel; simpl in H; [| discriminate].
  destruct (field v "filename" ≫= as_str) as [n |] eqn:En; simpl in H; [| discriminate].
  injection H as <-. simpl.
  apply field_as_str in En.
  apply field_decode in El as (lv & Hlv & Hl).
  apply field_decode in Eel as (ev & Hev & He).
  apply decode_location_get in Hl as [Hlr Hlc].
  apply decode_location_get in He as [Her Hec].
  unfold parse_entry.
  rewrite Hlv; simpl. rewrite Hlr; simpl. rewrite Hlc; simpl.
  rewrite Hev; simpl. rewrite Her; simpl. rewrite Hec; simpl.
  rewrite Ec; simpl. rewrite Em; simpl. rewrite En; simpl. rewrite Ef; simpl.
  unfold decoded_fix; simpl.
  assert (Hedit : fixToWorkspaceEdit rt (JStr n) fv = decoded_fix rt
            {| kind := k; code := c; message := m; fix_ := f; location := l;
               end_location := el; filename := n |}).
  { unfold decoded_fix; simpl. subst fo.
    destruct f as [f |].
    - assert (Hd : decode_fix fv = Some f).
      { destruct fv; simpl in Efo;
          first [ discriminate
                | destruct (decode_fix _) eqn:E; simpl in Efo; congruence ]. }
      now apply fixToWorkspaceEdit_decoded.
    - assert (Ht : truthy fv = false).
      { destruct fv; simpl in Efo;
          first [ reflexivity | discriminate
                | destruct (decode_fix _) eqn:E; simpl in Efo; discriminate ]. }
      unfold fixToWorkspaceEdit. rewrite Ht. reflexivity. }
  unfold decoded_fix in Hedit; simpl in Hedit. rewrite Hedit.
  unfold COLUMN_OFF_SET. reflexivity.
Qed.

Lemma parseMessages_array (output : string) (vs : list JsValue) (ch : OutputChannel)
    (ms : list ILintMessage) :
  JSON_parse rt output = inr (JArr vs) ->
  map_elems (parse_entry rt) vs = inr ms ->
  parseMessages rt output ch = (ms, ch).
Proof.
  intros Hp Hm. unfold parseMessages, parse_body. rewrite Hp. simpl. now rewrite Hm.
Qed.

(** A message at index [i] of the result was made from the entry at
    index [i] of the parsed array. *)
Lemma parseMessages_lookup (output : string) (vs : list JsValue) (ch : OutputChannel)
    (i : nat) (v : JsValue) (m : ILintMessage) :
  JSON_parse rt output = inr (JArr vs) ->
  vs !! i = Some v ->
  (parseMessages rt output ch).1 !! i = Some m ->
  parse_entry rt v = inr m.
Proof.
  intros Hp Hv Hm. unfold parseMessages, parse_body in Hm. rewrite Hp in Hm. simpl in Hm.
  destruct (map_elems (parse_entry rt) vs) as [err | ms] eqn:E; simpl in Hm.
  - discriminate.
  - exact (map_elems_lookup _ _ _ _ _ _ E Hv Hm).
Qed.

Lemma parse_entry_tags (v : JsValue) (m : ILintMessage) :
  parse_entry rt v = inr m ->
  exists c, get v "code" = inr c /\
            msg_tags m = if includes ["F401"; "F841"] c then [Unnecessary] else [].
Proof.
  intros H. unfold parse_entry in H.
  repeat (apply bind_ok_inv in H as (? & ? & H)).
  injection H as <-. simpl. eauto.
Qed.

(** C1: for a valid ruff JSON array (the text parses to an array whose
    entries follow the interfaces, with start columns that are safe
    integers, so that the subtraction of doubles is exact, and with fixes
    the libraries accept), [parseMessages] returns one message per entry,
    in order, with [line] the row, [column] the column minus one,
    [endLine] the end row and [endColumn] the end column as reported;
    nothing is logged. *)
Theorem parseMessages_valid_array (output : string) (vs : list JsValue)
    (es : list IRuffLintMessage) (ch : OutputChannel) :
  Range_create_accepts rt ->
  JSON_parse rt output = inr (JArr vs) ->
  Forall2 (fun v e => decode_entry v = Some e) vs es ->
  Forall (fun e => isSafeInteger (column (location e)) = true) es ->
  Forall (entry_fixable rt) es ->
  exists ms,
    parseMessages rt output ch = (ms, ch) /\
    length ms = length es /\
    Forall2 (fun e m =>
               msg_line m = JNum (row (location e)) /\
               msg_column m = JNum (column (location e) - 1) /\
               msg_endLine m = JNum (row (end_location e)) /\
               msg_endColumn m = JNum (column (end_location e)))
            es ms.
Proof.
  intros Hrange Hp Hdec _ Hfix.
  assert (Hms : exists ms,
             map_elems (parse_entry rt) vs = inr ms /\
             Forall2 (fun e m =>
               msg_line m = JNum (row (location e)) /\
               msg_column m = JNum (column (location e) - 1) /\
               msg_endLine m = JNum (row (end_location e)) /\
               msg_endColumn m = JNum (column (end_location e))) es ms).
  { clear Hp. induction Hdec as [| v e vs es Hd Hrest IH].
    - exists []. split; [reflexivity | constructor].
    - inversion Hfix as [| ? ? He Hes]; subst.
      destruct (IH Hes) as (ms & Hmap & Hall).
      assert (Hedit : exists edit, decoded_fix rt e = inr edit).
      { unfold decoded_fix, entry_fixable in *.
        destruct (fix_ e) as [f |]; [| eauto].
        destruct He as [Hpos (u & Hu)]. rewrite Hu. simpl.
        unfold fix_positions_ok in Hpos.
        apply andb_prop in Hpos as [Hpos H4].
        apply andb_prop in Hpos as [Hpos H3].
        apply andb_prop in Hpos as [H1 H2].
        rewrite (Hrange _ _ _ _ H1 H2 H3 H4). simpl. eauto. }
      destruct Hedit as (edit & Hedit).
      eexists (_ :: ms). simpl. rewrite (parse_entry_decoded _ _ Hd).
      rewrite Hedit. simpl. rewrite Hmap. simpl. split; [reflexivity |].
      constructor; [simpl; auto | exact Hall]. }
  destruct Hms as (ms & Hmap & Hall).
  exists ms. split; [now apply parseMessages_array with vs |].
  split; [symmetry; exact (Forall2_length _ _ _ Hall) | exact Hall].
Qed.

(** C2, as amended: when the text is not valid JSON, or the mapping
    throws, [parseMessages] returns the empty list (its promise does not
    reject) and appends the line [Linting with <id> failed:] to the
    output channel, followed by a second line with the error's message
    when what was thrown is an [Error]. *)
Theorem parseMessages_fails_soft (output : string) (ch : OutputChannel) (e : Thrown) :
  (JSON_parse rt output = inl e \/
   exists parsed, JSON_parse rt output = inr parsed /\
                  map_method "JSON.parse(...)" parsed (parse_entry rt) = inl e) ->
  parseMessages rt output ch =
    ([], (ch ++ ("Linting with " ++ info_id rt ++ " failed:")%string
             :: match e with
                | ThrownError _ message => [message]
                | ThrownValue _ => []
                end)%list).
Proof.
  intros H.
  assert (Hbody : parse_body rt output = inl e).
  { unfold parse_body. destruct H as [H | (parsed & Hp & H)].
    - now rewrite H.
    - rewrite Hp. exact H. }
  unfold parseMessages. rewrite Hbody. unfold appendLine.
  destruct e; [rewrite <- app_assoc |]; reflexivity.
Qed.

(** C3: a message made from an entry without a [fix] member has no fix;
    a message made from an entry that carries fix data has a workspace
    edit for one file with one replacement, over the range
    [(row - 1, column) .. (end row - 1, end column)] of the fix, by its
    [content]. *)
Theorem parseMessages_fix (output : string) (vs : list JsValue) (ch : OutputChannel)
    (i : nat) (v : JsValue) (m : ILintMessage) :
  Range_create_builds rt ->
  JSON_parse rt output = inr (JArr vs) ->
  vs !! i = Some v ->
  (parseMessages rt output ch).1 !! i = Some m ->
  (get v "fix" = inr JUndefined -> msg_fix m = None) /\
  (forall e, decode_entry v = Some e ->
     match fix_ e with
     | None => msg_fix m = None
     | Some f =>
         exists u,
           Uri_parse_toString rt (JStr (filename e)) = inr u /\
           msg_fix m =
             Some {| changes :=
                       {[ u := [ {| range := fix_range f;
                                    newText := JStr (content f) |} ] ]} |}
     end).
Proof.
  intros Hrange Hp Hv Hm.
  pose proof (parseMessages_lookup _ _ _ _ _ _ Hp Hv Hm) as Hentry.
  split.
  - intros Hfix. unfold parse_entry in Hentry.
    repeat (apply bind_ok_inv in Hentry as (? & ? & Hentry)).
    injection Hentry as <-. simpl.
    repeat match goal with
           | H1 : ?t = inr ?a, H2 : ?t = inr ?b |- _ =>
               rewrite H1 in H2; injection H2 as <-
           end.
    match goal with
    | H : fixToWorkspaceEdit _ _ JUndefined = inr _ |- _ =>
        unfold fixToWorkspaceEdit in H; simpl in H; now injection H as <-
    end.
  - intros e He. rewrite (parse_entry_decoded _ _ He) in Hentry.
    apply bind_ok_inv in Hentry as (edit & Hedit & Hentry).
    injection Hentry as <-. simpl.
    unfold decoded_fix in Hedit. destruct (fix_ e) as [f |].
    + apply bind_ok_inv in Hedit as (u & Hu & Hedit).
      apply bind_ok_inv in Hedit as (r & Hr & Hedit).
      injection Hedit as <-. apply Hrange in Hr. subst r.
      exists u. split; [exact Hu | reflexivity].
    + now injection Hedit as <-.
Qed.

(** C9: a returned message is tagged [Unnecessary] exactly when the code
    of its entry is [F401] or [F841]; for every other code it has no
    tags. *)
Theorem parseMessages_tags (output : string) (vs : list JsValue) (ch : OutputChannel)
    (i : nat) (v : JsValue) (m : ILintMessage) :
  JSON_parse rt output = inr (JArr vs) ->
  vs !! i = Some v ->
  (parseMessages rt output ch).1 !! i = Some m ->
  ((get v "code" = inr (JStr "F401") \/ get v "code" = inr (JStr "F841")) /\
   msg_tags m = [Unnecessary])
  \/
  (get v "code" <> inr (JStr "F401") /\ get v "code" <> inr (JStr "F841") /\
   msg_tags m = []).
Proof.
  intros Hp Hv Hm.
  pose proof (parseMessages_lookup _ _ _ _ _ _ Hp Hv Hm) as Hentry.
  apply parse_entry_tags in Hentry as (c & Hc & Htags).
  rewrite Hc, Htags. clear Htags.
  destruct c as [| | b | n | | t | l | ps]; simpl;
    try (right; repeat split; congruence).
  destruct (String.eqb_spec t "F401") as [-> | H1]; simpl.
  - left. split; [now left | reflexivity].
  - destruct (String.eqb_spec t "F841") as [-> | H2]; simpl.
    + left. split; [now right | reflexivity].
    + right. repeat split; congruence.
Qed.

Lemma parse_entry_constants (v : JsValue) (m : ILintMessage) :
  parse_entry rt v = inr m ->
  msg_severity m = Warning /\ msg_type m = "" /\ msg_provider m = info_id rt.
Proof.
  intros H. unfold parse_entry in H.
  repeat (apply bind_ok_inv in H as (? & ? & H)).
  injection H as <-. simpl. auto.
Qed.

(** X1: every message [parseMessages] returns has severity [Warning], an
    empty [type] and the linter's identifier as [provider]. *)
Theorem parseMessages_severity (output : string) (ch : OutputChannel) (m : ILintMessage) :
  In m (parseMessages rt output ch).1 ->
  msg_severity m = Warning /\ msg_type m = "" /\ msg_provider m = info_id rt.
Proof.
  unfold parseMessages. destruct (parse_body rt output) as [e | ms] eqn:E; simpl.
  - intros [].
  - intros Hin. unfold parse_body in E.
    apply bind_ok_inv in E as (parsed & _ & E).
    destruct parsed; simpl in E; try discriminate.
    apply map_elems_Forall2 in E.
    apply list_elem_of_In in Hin.
    destruct (list_elem_of_lookup_1 _ _ Hin) as (i & Hi).
    destruct (Forall2_lookup_r _ _ _ _ _ E Hi) as (v & _ & Hv).
    now apply parse_entry_constants in Hv.
Qed.

End RuffFacts.

(** ** The ruff adapter on the sample runtime *)

Section RuffExamples.

Import Ruff.

Lemma Node_Range_create_accepts : Range_create_accepts Node.runtime.
Proof.
  intros a b c d Ha Hb Hc Hd. simpl. unfold Node.Range_create.
  now rewrite Ha, Hb, Hc, Hd.
Qed.

Lemma Node_Range_create_builds : Range_create_builds Node.runtime.
Proof.
  intros a b c d r. simpl. unfold Node.Range_create.
  destruct (uinteger a && uinteger b && uinteger c && uinteger d);
    [now intros [= <-] | discriminate].
Qed.

Example sample_output_parses :
  Node.JSON_parse Node.sample_output = inr (JArr Node.sample_parsed).
Proof. vm_compute. reflexivity. Qed.

Example sample_entries_decoded :
  Forall2 (fun v e => decode_entry v = Some e) Node.sample_parsed Node.sample_entries.
Proof. vm_compute. repeat constructor. Qed.

(** The fix of the source's own example: rows 3 to 4 as ruff counts them
    are lines 2 to 3 of the editor, replaced by the empty text. *)
Example sample_fix :
  msg_fix <$> (parseMessages Node.runtime Node.sample_output []).1 =
    [ Some {| changes :=
                {[ "file:///path/to/bug.py" :=
                     [ {| range := mkRange 2 0 3 0; newText := JStr "" |} ] ]} |};
      None ].
Proof. vm_compute. reflexivity. Qed.

Example sample_columns :
  (fun m => (msg_line m, msg_column m, msg_endLine m, msg_endColumn m))
    <$> (parseMessages Node.runtime Node.sample_output []).1 =
    [ (JNum 3, JNum 7, JNum 3, JNum 19); (JNum 7, JNum 88, JNum 7, JNum 120) ].
Proof. vm_compute. reflexivity. Qed.

Lemma parseMessages_valid_array_witness :
  exists ms,
    parseMessages Node.runtime Node.sample_output [] = (ms, []) /\
    length ms = length Node.sample_entries /\
    Forall2 (fun e m =>
               msg_line m = JNum (row (location e)) /\
               msg_column m = JNum (column (location e) - 1) /\
               msg_endLine m = JNum (row (end_location e)) /\
               msg_endColumn m = JNum (column (end_location e)))
            Node.sample_entries ms.
Proof.
  apply (parseMessages_valid_array Node.runtime Node.sample_output
           Node.sample_parsed Node.sample_entries []).
  - exact Node_Range_create_accepts.
  - vm_compute. reflexivity.
  - vm_compute. repeat constructor.
  - repeat constructor.
  - repeat constructor. simpl. eexists. reflexivity.
Defined.

Lemma parseMessages_fails_soft_witness :
  parseMessages Node.runtime "not json" [] =
    ([], ["Linting with ruff failed:"; "Unexpected token in JSON"]).
Proof.
  apply (parseMessages_fails_soft Node.runtime "not json" []
           (ThrownError "SyntaxError" "Unexpected token in JSON")).
  left. vm_compute. reflexivity.
Defined.

(** C2 as stated fails: on text that is not JSON, and on an array whose
    entry cannot be read, the output channel receives two lines, not
    one. *)
Lemma parseMessages_logs_two_lines :
  parseMessages Node.runtime "not json" [] =
    ([], ["Linting with ruff failed:"; "Unexpected token in JSON"]) /\
  parseMessages Node.runtime "[null]" [] =
    ([], ["Linting with ruff failed:";
          "Cannot read properties of null (reading 'location')"]) /\
  length (parseMessages Node.runtime "not json" []).2 = 2%nat.
Proof. vm_compute. repeat split. Qed.

Lemma parseMessages_fix_witness :
  exists v m,
    Node.sample_parsed !! 0%nat = Some v /\
    (parseMessages Node.runtime Node.sample_output []).1 !! 0%nat = Some m /\
    (get v "fix" = inr JUndefined -> msg_fix m = None) /\
    (forall e, decode_entry v = Some e ->
       match fix_ e with
       | None => msg_fix m = None
       | Some f =>
           exists u,
             Uri_parse_toString Node.runtime (JStr (filename e)) = inr u /\
             msg_fix m =
               Some {| changes :=
                         {[ u := [ {| range := fix_range f;
                                      newText := JStr (content f) |} ] ]} |}
       end).
Proof.
  eexists _, _. split; [vm_compute; reflexivity |].
  split; [vm_compute; reflexivity |].
  apply (parseMessages_fix Node.runtime Node.sample_output Node.sample_parsed [] 0%nat).
  - exact Node_Range_create_builds.
  - vm_compute. reflexivity.
  - vm_compute. reflexivity.
  - vm_compute. reflexivity.
Defined.

Lemma parseMessages_tags_witness :
  exists v m,
    Node.sample_parsed !! 0%nat = Some v /\
    (parseMessages Node.runtime Node.sample_output []).1 !! 0%nat = Some m /\
    (((get v "code" = inr (JStr "F401") \/ get v "code" = inr (JStr "F841")) /\
      msg_tags m = [Unnecessary])
     \/
     (get v "code" <> inr (JStr "F401") /\ get v "code" <> inr (JStr "F841") /\
      msg_tags m = [])).
Proof.
  eexists _, _. split; [vm_compute; reflexivity |].
  split; [vm_compute; reflexivity |].
  apply (parseMessages_tags Node.runtime Node.sample_output Node.sample_parsed [] 0%nat).
  - vm_compute. reflexivity.
  - vm_compute. reflexivity.
  - vm_compute. reflexivity.
Defined.

Lemma parseMessages_severity_witness :
  exists m,
    (parseMessages Node.runtime Node.sample_output []).1 !! 1%nat = Some m /\
    msg_severity m = Warning /\ msg_type m = "" /\ msg_provider m = "ruff".
Proof.
  eexists. split; [vm_compute; reflexivity |].
  apply (parseMessages_severity Node.runtime Node.sample_output []).
  vm_compute. right. left. reflexivity.
Defined.

End RuffExamples.

(** ** The interpreter resolver *)

Section ConfigFacts.

Import Config.
Local Open Scope host_scope.

Variable h : Host.

Lemma called_nil (w : World) : called w [] = w.
Proof. destruct w. unfold called. simpl. now rewrite app_nil_r. Qed.

Lemma called_called (w : World) (cs ds : list Call) :
  called (called w cs) ds = called w (cs ++ ds).
Proof. unfold called. simpl. now rewrite <- app_assoc. Qed.

Lemma env_called (w : World) (cs : list Call) : env (called w cs) = env w.
Proof. reflexivity. Qed.

Lemma getenv_run (name : string) (w : World) :
  getenv name w = (inr (env w !! name), w).
Proof. reflexivity. Qed.

Lemma existsSync_run (p : string) (w : World) :
  existsSync h p w = (inr (fs_existsSync h p), called w [ExistsSync p]).
Proof. reflexivity. Qed.

Lemma pythonBinFromPath_run (p : string) (w : World) :
  pythonBinFromPath h p w =
    (inr (if fs_existsSync h (pythonBinPath h p) then Some (pythonBinPath h p) else None),
     called w [ExistsSync (pythonBinPath h p)]).
Proof. reflexivity. Qed.

(** When the virtualenv probe does not match, resolution is the conda
    probe and what follows it, after the calls the miss has cost. *)
Lemma probe_virtualenv_miss (root : string) (w : World) :
  virtualenv_misses h w ->
  probe_virtualenv h root w = probe_conda h root (called w (virtualenv_calls h w)).
Proof.
  unfold virtualenv_misses, virtualenv_calls, probe_virtualenv, and_then, getenv.
  destruct (set_to (env w !! "VIRTUAL_ENV")) as [dir |].
  - intros Hcfg. rewrite existsSync_run, Hcfg. reflexivity.
  - intros _. now rewrite called_nil.
Qed.

Lemma probe_conda_miss (root : string) (w : World) :
  set_to (env w !! "CONDA_PREFIX") = None ->
  probe_conda h root w = probe_pyenv h root w.
Proof. intros H. unfold probe_conda, and_then, getenv. now rewrite H. Qed.

(** [update] when the probes give no interpreter: the configured path,
    resolved, goes to both setters. *)
Lemma update_fallback (configured : string) (this : PythonSettings) (w w' : World) :
  resolvePythonFromVENV h (workspaceRoot this) w = (inr None, w') ->
  update h configured this w =
    (this' <- set_pythonPath h
                (systemVariables_resolve h (workspaceRoot this) configured) this ;;
     set_configPythonPath h
       (systemVariables_resolve h (workspaceRoot this) configured) this') w'.
Proof.
  intros H. unfold update. unfold and_then at 1. rewrite H. reflexivity.
Qed.

(** C4: with [VIRTUAL_ENV] set, [<VIRTUAL_ENV>/pyvenv.cfg] present and the
    interpreter of the platform present under it ([bin/python], or
    [Scripts/python.exe] on Windows), resolution returns that
    interpreter after these two checks, whatever [CONDA_PREFIX] and the
    rest of the host are. *)
Theorem virtualenv_takes_priority (root : string) (w : World) (dir : string) :
  set_to (env w !! "VIRTUAL_ENV") = Some dir ->
  fs_existsSync h (path_join h [dir; "pyvenv.cfg"]) = true ->
  fs_existsSync h (pythonBinPath h dir) = true ->
  resolvePythonFromVENV h root w =
    (inr (Some (pythonBinPath h dir)),
     called w [ExistsSync (path_join h [dir; "pyvenv.cfg"]);
               ExistsSync (pythonBinPath h dir)]).
Proof.
  intros Hset Hcfg Hbin.
  unfold resolvePythonFromVENV, try_catch, probe_virtualenv, and_then, getenv.
  rewrite Hset, existsSync_run, Hcfg, pythonBinFromPath_run, Hbin, called_called.
  reflexivity.
Qed.

(** C10: with [VIRTUAL_ENV] set and [<VIRTUAL_ENV>/pyvenv.cfg] present
    but no interpreter under it, [resolvePythonFromVENV] returns
    [undefined] after these two checks, without running any later probe
    whatever it would find, and [update] goes on with the configured
    path. *)
Theorem virtualenv_without_interpreter (configured : string) (this : PythonSettings)
    (w : World) (dir : string) :
  set_to (env w !! "VIRTUAL_ENV") = Some dir ->
  fs_existsSync h (path_join h [dir; "pyvenv.cfg"]) = true ->
  fs_existsSync h (pythonBinPath h dir) = false ->
  let w' := called w [ExistsSync (path_join h [dir; "pyvenv.cfg"]);
                      ExistsSync (pythonBinPath h dir)] in
  resolvePythonFromVENV h (workspaceRoot this) w = (inr None, w') /\
  update h configured this w =
    (this' <- set_pythonPath h
                (systemVariables_resolve h (workspaceRoot this) configured) this ;;
     set_configPythonPath h
       (systemVariables_resolve h (workspaceRoot this) configured) this') w'.
Proof.
  intros Hset Hcfg Hbin w'.
  assert (H : resolvePythonFromVENV h (workspaceRoot this) w = (inr None, w')).
  { unfold resolvePythonFromVENV, try_catch, probe_virtualenv, and_then, getenv.
    rewrite Hset, existsSync_run, Hcfg, pythonBinFromPath_run, Hbin, called_called.
    reflexivity. }
  split; [exact H | now apply update_fallback].
Qed.

(** C6, as amended: when no earlier probe matches and
    [<workspaceRoot>/.python-version] exists, [PYENV_VERSION] is set to
    the first line of the file only if it is not already set (and the
    file can be read; an error is logged otherwise); in every case the
    probe returns no interpreter, no later probe and no process is run,
    and [update] goes on with the configured path. *)
Theorem python_version_hint (configured : string) (this : PythonSettings) (w : World) :
  virtualenv_misses h w ->
  set_to (env w !! "CONDA_PREFIX") = None ->
  fs_existsSync h (path_join h [workspaceRoot this; ".python-version"]) = true ->
  let p := path_join h [workspaceRoot this; ".python-version"] in
  let before := (virtualenv_calls h w ++ [ExistsSync p])%list in
  let w' :=
    match set_to (env w !! "PYENV_VERSION") with
    | Some _ => called w before
    | None =>
        match fs_readFileSync h p with
        | inr content =>
            {| env := <["PYENV_VERSION" := first_line content]> (env w);
               calls := (calls w ++ before ++ [ReadFileSync p])%list;
               console := console w |}
        | inl e =>
            {| env := env w;
               calls := (calls w ++ before ++ [ReadFileSync p])%list;
               console := (console w ++ [e])%list |}
        end
    end in
  resolvePythonFromVENV h (workspaceRoot this) w = (inr None, w') /\
  update h configured this w =
    (this' <- set_pythonPath h
                (systemVariables_resolve h (workspaceRoot this) configured) this ;;
     set_configPythonPath h
       (systemVariables_resolve h (workspaceRoot this) configured) this') w'.
Proof.
  intros Hvenv Hconda Hfile p before w'.
  assert (H : resolvePythonFromVENV h (workspaceRoot this) w = (inr None, w')).
  { subst w' before p. unfold resolvePythonFromVENV, try_catch.
    rewrite (probe_virtualenv_miss _ _ Hvenv).
    rewrite probe_conda_miss by exact Hconda.
    unfold probe_pyenv, and_then. rewrite existsSync_run, Hfile.
    rewrite getenv_run, called_called, env_called.
    destruct (set_to (env w !! "PYENV_VERSION")) as [v |].
    - reflexivity.
    - unfold readFileSync, and_then, record, lift. simpl.
      destruct (fs_readFileSync h _) as [e | content]; simpl;
        rewrite <- !app_assoc; reflexivity. }
  split; [exact H | now apply update_fallback].
Qed.

Lemma spawnSync_stdout_run (command : string) (args : list string)
    (cwd : option string) (w : World) :
  spawnSync_stdout h command args cwd w =
    (child_process_spawnSync h (env w) command args cwd,
     called w [SpawnSync command args cwd]).
Proof. reflexivity. Qed.

Lemma which_sync_run (command : string) (w : World) :
  which_sync h command w =
    (inr (which_sync_nothrow h (env w) command), called w [WhichSync command]).
Proof. reflexivity. Qed.

(** The line the loop over the output of poetry settles on. *)
Lemma poetry_info_marked (pre : list string) (l : string) (post : list string)
    (info : string) :
  Forall (fun x => JsString.includes x "(Activated)" = false) pre ->
  JsString.includes l "(Activated)" = true ->
  poetry_info (pre ++ l :: post) info =
    JsString.trim (JsString.remove_first "(Activated)" l).
Proof.
  intros Hpre Hl. revert info.
  induction Hpre as [| x pre Hx Hpre IH]; intros info; simpl.
  - now rewrite Hl.
  - rewrite Hx. apply IH.
Qed.

Lemma last_cons_default {T} (x : T) (l : list T) (d d' : T) :
  List.last (x :: l) d = List.last (x :: l) d'.
Proof.
  revert x. induction l as [| y l IH]; intros x; [reflexivity |].
  change (List.last (y :: l) d = List.last (y :: l) d'). apply IH.
Qed.

Lemma poetry_info_unmarked (lines : list string) (info : string) :
  Forall (fun x => JsString.includes x "(Activated)" = false) lines ->
  poetry_info lines info = List.last lines info.
Proof.
  intros H. revert info.
  induction H as [| x lines Hx H IH]; intros info; simpl.
  - reflexivity.
  - rewrite Hx, IH. destruct lines; [reflexivity | apply last_cons_default].
Qed.

(** C5, as amended: when no earlier probe matches and
    [<workspaceRoot>/poetry.lock] exists, resolution runs
    [poetry env list --full-path --no-ansi] in the workspace root; the
    text it settles on is the first line marked [(Activated)], with the
    marker removed and trimmed, or the last line when none is marked; if
    that text is not empty the result is its bin-path interpreter
    (nothing when the file is missing), and if it is empty resolution
    continues with the scan of the workspace root. *)
Theorem poetry_probe (root : string) (w : World) (stdout : string) :
  virtualenv_misses h w ->
  set_to (env w !! "CONDA_PREFIX") = None ->
  fs_existsSync h (path_join h [root; ".python-version"]) = false ->
  fs_existsSync h (path_join h [root; "Pipfile"]) = false ->
  fs_existsSync h (path_join h [root; "poetry.lock"]) = true ->
  child_process_spawnSync h (env w) "poetry"
    ["env"; "list"; "--full-path"; "--no-ansi"] (Some root) = inr (Some stdout) ->
  let lines := JsString.split JsString.newline (JsString.trim stdout) in
  let info := poetry_info lines "" in
  let before :=
    (virtualenv_calls h w ++
     [ExistsSync (path_join h [root; ".python-version"]);
      ExistsSync (path_join h [root; "Pipfile"]);
      ExistsSync (path_join h [root; "poetry.lock"]);
      SpawnSync "poetry" ["env"; "list"; "--full-path"; "--no-ansi"] (Some root)])%list in
  (forall pre l post,
      lines = (pre ++ l :: post)%list ->
      Forall (fun x => JsString.includes x "(Activated)" = false) pre ->
      JsString.includes l "(Activated)" = true ->
      info = JsString.trim (JsString.remove_first "(Activated)" l)) /\
  (Forall (fun x => JsString.includes x "(Activated)" = false) lines ->
   info = List.last lines "") /\
  (JsString.nonempty info = true ->
   resolvePythonFromVENV h root w =
     (inr (if fs_existsSync h (pythonBinPath h info)
           then Some (pythonBinPath h info) else None),
      called w (before ++ [ExistsSync (pythonBinPath h info)]))) /\
  (JsString.nonempty info = false ->
   resolvePythonFromVENV h root w =
     try_catch (probe_workspace h root) (log_and_give_up) (called w before)).
Proof.
  intros Hvenv Hconda Hpv Hpip Hlock Hout lines info before.
  assert (Hrun : resolvePythonFromVENV h root w =
            try_catch (if JsString.nonempty info then pythonBinFromPath h info
                       else probe_workspace h root)
                      log_and_give_up (called w before)).
  { subst before info lines. unfold resolvePythonFromVENV, try_catch.
    rewrite (probe_virtualenv_miss _ _ Hvenv).
    rewrite probe_conda_miss by exact Hconda.
    unfold probe_pyenv, and_then. rewrite existsSync_run, Hpv.
    unfold probe_pipenv, and_then. rewrite existsSync_run, Hpip.
    unfold probe_poetry, and_then. rewrite existsSync_run, Hlock.
    rewrite spawnSync_stdout_run, !called_called, env_called, Hout.
    simpl stdout_trim. unfold ret at 1. rewrite <- !app_assoc. reflexivity. }
  split; [| split; [| split]].
  - intros pre l post Hlines Hpre Hl. subst info. rewrite Hlines.
    now apply poetry_info_marked.
  - intros Hnone. subst info. now apply poetry_info_unmarked.
  - intros Hinfo. rewrite Hrun, Hinfo. unfold try_catch.
    rewrite pythonBinFromPath_run, called_called. reflexivity.
  - intros Hinfo. rewrite Hrun, Hinfo. reflexivity.
Qed.

Lemma isValidPythonPath_run (pythonPath : string) (w : World) :
  exists valid,
    isValidPythonPath h pythonPath w =
      (inr valid, called w [SpawnSync pythonPath ["-c"; "print(1234)"] None]).
Proof.
  unfold isValidPythonPath, try_catch, and_then. rewrite spawnSync_stdout_run.
  destruct (child_process_spawnSync h (env w) pythonPath _ None) as [e | [out |]];
    simpl; eauto.
Qed.

(** C7, as amended: [getPythonExecutable] expands a leading [~], then,
    when the path is [python], has no separator, or has a base name equal
    to its directory name, asks [which] for it and takes what is found
    (otherwise [which] is not asked); it then runs the path with
    [-c print(1234)] and returns the path whatever the outcome of that
    run. *)
Theorem getPythonExecutable_lookup (configured : string) (w : World) :
  let p := untildify h configured in
  let lookup :=
    String.eqb p "python"
    || negb (JsString.includes p (path_sep h))
    || String.eqb (path_basename h p) (path_dirname h p) in
  let final :=
    if lookup then
      match set_to (which_sync_nothrow h (env w) p) with
      | Some bin => bin
      | None => p
      end
    else p in
  getPythonExecutable h configured w =
    (inr final,
     called w ((if lookup then [WhichSync p] else [])
               ++ [SpawnSync final ["-c"; "print(1234)"] None])).
Proof.
  intros p lookup final. unfold getPythonExecutable. fold p.
  change (only_python h p) with lookup.
  unfold and_then at 1. subst final. destruct lookup.
  - unfold and_then at 1. rewrite which_sync_run. unfold ret at 1.
    unfold and_then.
    destruct (isValidPythonPath_run
                (match set_to (which_sync_nothrow h (env w) p) with
                 | Some bin => bin
                 | None => p
                 end) (called w [WhichSync p])) as (valid & ->).
    rewrite called_called. now destruct valid.
  - unfold ret at 1. unfold and_then.
    destruct (isValidPythonPath_run p w) as (valid & ->).
    now destruct valid.
Qed.

(** [getPythonExecutable] always returns, and ends with the check of
    the path it returns. *)
Lemma getPythonExecutable_total (value : string) (w : World) :
  exists p cs,
    getPythonExecutable h value w =
      (inr p, called w (cs ++ [SpawnSync p ["-c"; "print(1234)"] None])).
Proof.
  unfold getPythonExecutable. unfold and_then at 1.
  destruct (only_python h (untildify h value)).
  - unfold and_then at 1. rewrite which_sync_run. unfold ret at 1. unfold and_then.
    match goal with
    | |- context [isValidPythonPath h ?q ?w0] =>
        destruct (isValidPythonPath_run q w0) as (valid & ->); exists q, [WhichSync (untildify h value)]
    end.
    rewrite called_called. now destruct valid.
  - unfold ret at 1. unfold and_then.
    destruct (isValidPythonPath_run (untildify h value) w) as (valid & ->).
    exists (untildify h value), []. now destruct valid.
Qed.

Lemma getStdLibs_run (pythonPath : string) (w : World) :
  exists libs cs, getStdLibs h pythonPath w = (inr libs, called w cs).
Proof.
  unfold getStdLibs, try_catch, and_then. rewrite spawnSync_stdout_run.
  destruct (child_process_spawnSync h (env w) pythonPath _ None) as [e | [out |]];
    simpl; [eauto | | eauto].
  destruct (child_process_spawnSync h (env w) pythonPath
              ["-c"; "import site;print(site.getusersitepackages())"] None)
    as [e | [out' |]]; simpl; unfold ret.
  - eexists _, [_; _]. unfold called. simpl. rewrite <- app_assoc. reflexivity.
  - eexists _, [_; _]. unfold called. simpl. rewrite <- app_assoc. reflexivity.
  - eexists _, [_; _]. unfold called. simpl. rewrite <- app_assoc. reflexivity.
Qed.

Lemma called_extends (w : World) (c : Call) (cs : list Call) :
  calls (called w (c :: cs)) <> calls w.
Proof.
  simpl. intros H. apply (f_equal length) in H.
  rewrite length_app in H. simpl in H. lia.
Qed.

(** C8: setting [pythonPath] to the value already cached changes neither
    the settings nor the world (no lookup, no process is run); a value
    that differs is resolved with [getPythonExecutable], its site
    packages are looked up, and both results are stored. *)
Theorem set_pythonPath_cached (this : PythonSettings) (w : World) :
  set_pythonPath h (_pythonPath this) this w = (inr this, w) /\
  (forall value, value <> _pythonPath this ->
     exists p w1 libs w2,
       getPythonExecutable h value w = (inr p, w1) /\
       getStdLibs h p w1 = (inr libs, w2) /\
       set_pythonPath h value this w =
         (inr (with_stdLibs (with_pythonPath this p) libs), w2) /\
       calls w2 <> calls w).
Proof.
  split.
  - unfold set_pythonPath. now rewrite String.eqb_refl.
  - intros value Hne. unfold set_pythonPath.
    destruct (String.eqb_spec (_pythonPath this) value) as [E | _]; [congruence |].
    destruct (getPythonExecutable_total value w) as (p & cs & Hexe).
    destruct (getStdLibs_run p (called w (cs ++ [SpawnSync p ["-c"; "print(1234)"] None])))
      as (libs & ds & Hlibs).
    eexists p, _, libs, _. split; [exact Hexe |]. split; [exact Hlibs |].
    split.
    + unfold try_catch, and_then. rewrite Hexe. simpl _pythonPath.
      rewrite Hlibs. reflexivity.
    + rewrite called_called. destruct cs; apply called_extends.
Qed.

(** X3: when the virtualenv probe does not match and [CONDA_PREFIX] is
    set, the result is the interpreter under that prefix if the file
    exists and [undefined] otherwise; no later probe runs. *)
Theorem conda_probe (root : string) (w : World) (prefix : string) :
  virtualenv_misses h w ->
  set_to (env w !! "CONDA_PREFIX") = Some prefix ->
  resolvePythonFromVENV h root w =
    (inr (if fs_existsSync h (pythonBinPath h prefix)
          then Some (pythonBinPath h prefix) else None),
     called w (virtualenv_calls h w ++ [ExistsSync (pythonBinPath h prefix)])).
Proof.
  intros Hvenv Hconda. unfold resolvePythonFromVENV, try_catch.
  rewrite (probe_virtualenv_miss _ _ Hvenv).
  unfold probe_conda, and_then. rewrite getenv_run, env_called, Hconda.
  rewrite pythonBinFromPath_run, called_called. reflexivity.
Qed.

(** X4: when no earlier probe matches and [<workspaceRoot>/Pipfile]
    exists, the result is what [pipenv --py] prints, trimmed; if the
    process cannot be started the error is logged and the result is
    [undefined]. *)
Theorem pipenv_probe (root : string) (w : World) :
  virtualenv_misses h w ->
  set_to (env w !! "CONDA_PREFIX") = None ->
  fs_existsSync h (path_join h [root; ".python-version"]) = false ->
  fs_existsSync h (path_join h [root; "Pipfile"]) = true ->
  let before :=
    (virtualenv_calls h w ++
     [ExistsSync (path_join h [root; ".python-version"]);
      ExistsSync (path_join h [root; "Pipfile"]);
      SpawnSync "pipenv" ["--py"] None])%list in
  match child_process_spawnSync h (env w) "pipenv" ["--py"] None with
  | inr (Some stdout) =>
      resolvePythonFromVENV h root w = (inr (Some (JsString.trim stdout)), called w before)
  | inr None =>
      (resolvePythonFromVENV h root w).1 = inr None /\
      calls (resolvePythonFromVENV h root w).2 = (calls w ++ before)%list /\
      length (console (resolvePythonFromVENV h root w).2) = S (length (console w))
  | inl e =>
      (resolvePythonFromVENV h root w).1 = inr None /\
      console (resolvePythonFromVENV h root w).2 = (console w ++ [e])%list
  end.
Proof.
  intros Hvenv Hconda Hpv Hpip before. subst before.
  unfold resolvePythonFromVENV, try_catch.
  rewrite (probe_virtualenv_miss _ _ Hvenv).
  rewrite probe_conda_miss by exact Hconda.
  unfold probe_pyenv, and_then. rewrite existsSync_run, Hpv.
  unfold probe_pipenv, and_then. rewrite existsSync_run, Hpip.
  rewrite spawnSync_stdout_run, !called_called, env_called.
  destruct (child_process_spawnSync h (env w) "pipenv" ["--py"] None) as [e | [out |]];
    simpl.
  - split; reflexivity.
  - rewrite <- !app_assoc. reflexivity.
  - rewrite <- !app_assoc. repeat split. rewrite length_app. simpl. lia.
Qed.

End ConfigFacts.

(** ** The resolver on the sample hosts *)

Section ConfigExamples.

Import Config.
Local Open Scope host_scope.

Lemma virtualenv_takes_priority_witness :
  resolvePythonFromVENV Sample.venv_host "/w" Sample.venv_world =
    (inr (Some "/env/bin/python"),
     called Sample.venv_world
       [ExistsSync "/env/pyvenv.cfg"; ExistsSync "/env/bin/python"]).
Proof.
  apply (virtualenv_takes_priority Sample.venv_host "/w" Sample.venv_world "/env");
    vm_compute; reflexivity.
Defined.

Lemma virtualenv_without_interpreter_witness :
  resolvePythonFromVENV Sample.broken_venv_host "/w" Sample.venv_world =
    (inr None,
     called Sample.venv_world
       [ExistsSync "/env/pyvenv.cfg"; ExistsSync "/env/bin/python"]).
Proof.
  apply (virtualenv_without_interpreter Sample.broken_venv_host "python"
           (Sample.settings "/w") Sample.venv_world "/env");
    vm_compute; reflexivity.
Defined.

Lemma python_version_hint_witness :
  resolvePythonFromVENV Sample.pyenv_host "/w" (Sample.world []) =
    (inr None,
     {| env := <["PYENV_VERSION" := "3.11.2"]> (env (Sample.world []));
        calls := [ExistsSync "/w/.python-version"; ReadFileSync "/w/.python-version"];
        console := [] |}).
Proof.
  exact (proj1 (python_version_hint Sample.pyenv_host "python" (Sample.settings "/w")
                  (Sample.world []) I eq_refl eq_refl)).
Defined.

(** C6 as stated fails: with [PYENV_VERSION] already set (as
    [pyenv shell] does), the first line of [.python-version] is not
    recorded and the variable keeps its value. *)
Lemma python_version_keeps_PYENV_VERSION :
  (resolvePythonFromVENV Sample.pyenv_host "/w" Sample.pyenv_shell_world).1 = inr None /\
  env (resolvePythonFromVENV Sample.pyenv_host "/w" Sample.pyenv_shell_world).2
    !! "PYENV_VERSION" = Some "3.8.0" /\
  Js.bind (fs_readFileSync Sample.pyenv_host "/w/.python-version")
          (fun content => ok (first_line content)) = inr "3.11.2".
Proof. vm_compute. repeat split. Qed.

Lemma poetry_probe_witness :
  resolvePythonFromVENV (Sample.poetry_host Sample.poetry_listing) "/w" (Sample.world []) =
    (inr (Some "/cache/b-py3.11/bin/python"),
     called (Sample.world [])
       [ExistsSync "/w/.python-version"; ExistsSync "/w/Pipfile";
        ExistsSync "/w/poetry.lock";
        SpawnSync "poetry" ["env"; "list"; "--full-path"; "--no-ansi"] (Some "/w");
        ExistsSync "/cache/b-py3.11/bin/python"]).
Proof.
  exact (proj1 (proj2 (proj2
           (poetry_probe (Sample.poetry_host Sample.poetry_listing) "/w" (Sample.world [])
              Sample.poetry_listing I eq_refl eq_refl eq_refl eq_refl eq_refl)))
           eq_refl).
Defined.

(** C5 as stated fails: when the marked line holds nothing but the
    marker, or when poetry lists nothing, no interpreter is resolved from
    the line; resolution goes on to scan the workspace root and returns
    what it finds there. *)
Lemma poetry_empty_choice_falls_through :
  resolvePythonFromVENV (Sample.poetry_host "(Activated)") "/w" (Sample.world []) =
    (inr (Some "/w/.venv/bin/python"),
     called (Sample.world [])
       [ExistsSync "/w/.python-version"; ExistsSync "/w/Pipfile";
        ExistsSync "/w/poetry.lock";
        SpawnSync "poetry" ["env"; "list"; "--full-path"; "--no-ansi"] (Some "/w");
        ReaddirSync "/w"; ExistsSync "/w/.venv/pyvenv.cfg";
        ExistsSync "/w/.venv/bin/python"]) /\
  (resolvePythonFromVENV (Sample.poetry_host "") "/w" (Sample.world [])).1 =
    inr (Some "/w/.venv/bin/python") /\
  pythonBinPath (Sample.poetry_host "(Activated)") "" = "bin/python".
Proof. vm_compute. repeat split. Qed.

(** The example of the specification: [python], found on the search
    path, passing the check. *)
Lemma getPythonExecutable_lookup_witness :
  getPythonExecutable Sample.path_host "python" (Sample.world []) =
    (inr "/usr/bin/python3",
     called (Sample.world [])
       [WhichSync "python";
        SpawnSync "/usr/bin/python3" ["-c"; "print(1234)"] None]).
Proof.
  exact (getPythonExecutable_lookup Sample.path_host "python" (Sample.world [])).
Defined.

(** A path that fails the check is returned all the same. *)
Example getPythonExecutable_invalid :
  (getPythonExecutable Sample.path_host "/nowhere/python" (Sample.world [])).1 =
    inr "/nowhere/python" /\
  (isValidPythonPath Sample.path_host "/nowhere/python" (Sample.world [])).1 =
    inr false.
Proof. vm_compute. split; reflexivity. Qed.

(** C7 as stated fails: the last two segments of [/opt/python/python]
    are identical, yet the search path is not consulted for it (and what
    the search would have answered is not substituted); it is for
    [python/python], whose base name is its directory name. *)
Lemma getPythonExecutable_nested_same_name :
  PosixPath.segments "/opt/python/python" = [""; "opt"; "python"; "python"] /\
  which_sync_nothrow Sample.path_host ∅ "/opt/python/python" = Some "/usr/bin/python3" /\
  getPythonExecutable Sample.path_host "/opt/python/python" (Sample.world []) =
    (inr "/opt/python/python",
     called (Sample.world [])
       [SpawnSync "/opt/python/python" ["-c"; "print(1234)"] None]) /\
  getPythonExecutable Sample.path_host "python/python" (Sample.world []) =
    (inr "/usr/bin/python3",
     called (Sample.world [])
       [WhichSync "python/python";
        SpawnSync "/usr/bin/python3" ["-c"; "print(1234)"] None]).
Proof. vm_compute. repeat split. Qed.

(** A home directory is substituted before the test: [~] by itself is a
    name without separator, what is tested is the directory. *)
Example getPythonExecutable_tilde :
  getPythonExecutable Sample.path_host "~" (Sample.world []) =
    (inr "/home/u",
     called (Sample.world []) [SpawnSync "/home/u" ["-c"; "print(1234)"] None]).
Proof. vm_compute. reflexivity. Qed.

Lemma set_pythonPath_cached_witness :
  set_pythonPath Sample.path_host "/usr/bin/python3" Sample.cached_settings (Sample.world [])
    = (inr Sample.cached_settings, Sample.world []).
Proof.
  exact (proj1 (set_pythonPath_cached Sample.path_host Sample.cached_settings
                  (Sample.world []))).
Defined.

Example set_pythonPath_twice :
  exists this w,
    set_pythonPath Sample.path_host "python" (Sample.settings "/w") (Sample.world [])
      = (inr this, w) /\
    _pythonPath this = "/usr/bin/python3" /\
    set_pythonPath Sample.path_host "/usr/bin/python3" this w = (inr this, w).
Proof. eexists _, _. vm_compute. repeat split. Qed.

Lemma conda_probe_witness :
  resolvePythonFromVENV Sample.venv_host "/w" (Sample.world [("CONDA_PREFIX", "/conda")]) =
    (inr (Some "/conda/bin/python"),
     called (Sample.world [("CONDA_PREFIX", "/conda")]) [ExistsSync "/conda/bin/python"]).
Proof.
  exact (conda_probe Sample.venv_host "/w" (Sample.world [("CONDA_PREFIX", "/conda")])
           "/conda" I eq_refl).
Defined.

Lemma pipenv_probe_witness :
  resolvePythonFromVENV Sample.pipenv_host "/w" (Sample.world []) =
    (inr (Some "/home/u/.virtualenvs/w-x1/bin/python"),
     called (Sample.world [])
       [ExistsSync "/w/.python-version"; ExistsSync "/w/Pipfile";
        SpawnSync "pipenv" ["--py"] None]).
Proof.
  exact (pipenv_probe Sample.pipenv_host "/w" (Sample.world []) I eq_refl eq_refl eq_refl).
Defined.

End ConfigExamples.

(** ** More on the ruff adapter: what goes wrong, and what is copied *)

Section RuffEdgeCases.

Import Ruff.
Local Open Scope js_scope.

Variable rt : Runtime.

(** Where a traversal that throws stops. *)
Lemma map_elems_throws {A B} (f : A -> JsResult B) (l : list A) (e : Thrown) :
  map_elems f l = inl e ->
  exists pre x post,
    l = (pre ++ x :: post)%list /\
    Forall (fun u => exists y, f u = inr y) pre /\
    f x = inl e.
Proof.
  induction l as [| a l IH]; simpl; [discriminate |].
  destruct (f a) as [e' | y] eqn:Ea; simpl.
  - intros [= <-]. exists [], a, l. repeat split; [constructor | exact Ea].
  - destruct (map_elems f l) as [e' | ys] eqn:El; simpl; [| discriminate].
    intros [= <-]. destruct (IH eq_refl) as (pre & x & post & -> & Hpre & Hx).
    exists (a :: pre), x, post. repeat split; [| exact Hx].
    constructor; [eauto | exact Hpre].
Qed.

(** X5: text that is valid JSON but not an array (an object, a string, a
    number, a boolean, [null]) gives no message and two lines in the
    output channel: the heading and the [TypeError] of the call of
    [map]. *)
Theorem parseMessages_not_an_array (output : string) (v : JsValue) (ch : OutputChannel) :
  JSON_parse rt output = inr v ->
  (forall elems, v <> JArr elems) ->
  parseMessages rt output ch =
    ([], (ch ++ [ ("Linting with " ++ info_id rt ++ " failed:")%string;
                  match nullish_name v with
                  | Some n => ("Cannot read properties of " ++ n ++ " (reading 'map')")%string
                  | None => "JSON.parse(...).map is not a function"
                  end ])%list).
Proof.
  intros Hp Hv. unfold parseMessages, parse_body. rewrite Hp. simpl.
  unfold appendLine.
  destruct v; simpl; rewrite <- ?app_assoc; try reflexivity.
  now destruct (Hv elems).
Qed.

(** X6: for text that parses to an array, [parseMessages] returns either
    a message for every entry, logging nothing, or no message at all: the
    first entry the callback throws on discards the messages of all
    entries, and it is the error of that entry that is logged. *)
Theorem parseMessages_all_or_nothing (output : string) (vs : list JsValue)
    (ch : OutputChannel) :
  JSON_parse rt output = inr (JArr vs) ->
  (exists ms,
      parseMessages rt output ch = (ms, ch) /\
      Forall2 (fun v m => parse_entry rt v = inr m) vs ms)
  \/
  (exists pre v post e,
      vs = (pre ++ v :: post)%list /\
      Forall (fun u => exists m, parse_entry rt u = inr m) pre /\
      parse_entry rt v = inl e /\
      parseMessages rt output ch =
        ([], (ch ++ ("Linting with " ++ info_id rt ++ " failed:")%string
                 :: (if instanceof_Error e then [error_message e] else []))%list)).
Proof.
  intros Hp. unfold parseMessages, parse_body. rewrite Hp. simpl.
  destruct (map_elems (parse_entry rt) vs) as [e | ms] eqn:E.
  - right. destruct (map_elems_throws _ _ _ E) as (pre & v & post & Hvs & Hpre & Hv).
    exists pre, v, post, e. repeat split; try assumption.
    unfold appendLine. destruct (instanceof_Error e); [rewrite <- app_assoc |]; reflexivity.
  - left. exists ms. split; [reflexivity | now apply map_elems_Forall2].
Qed.

Lemma map_elems_stops {A B} (f : A -> JsResult B) (pre : list A) (x : A)
    (post : list A) (e : Thrown) :
  Forall (fun u => exists y, f u = inr y) pre ->
  f x = inl e ->
  map_elems f (pre ++ x :: post) = inl e.
Proof.
  intros Hpre Hx. induction Hpre as [| a pre (y & Hy) _ IH]; simpl.
  - now rewrite Hx.
  - now rewrite Hy, IH.
Qed.

(** X7: an entry without a [location] member (an empty object, a number,
    a string) that comes after readable entries makes [parseMessages]
    return no message at all, and log the [TypeError] of the read of
    [row]; an entry that is [null] does the same with the read of
    [location]. *)
Theorem parseMessages_entry_without_location (output : string)
    (pre : list JsValue) (v : JsValue) (post : list JsValue) (ch : OutputChannel) :
  JSON_parse rt output = inr (JArr (pre ++ v :: post)) ->
  Forall (fun u => exists m, parse_entry rt u = inr m) pre ->
  v = JNull \/ get v "location" = inr JUndefined ->
  parseMessages rt output ch =
    ([], (ch ++ [ ("Linting with " ++ info_id rt ++ " failed:")%string;
                  match v with
                  | JNull => "Cannot read properties of null (reading 'location')"
                  | _ => "Cannot read properties of undefined (reading 'row')"
                  end ])%list).
Proof.
  intros Hp Hpre Hv.
  assert (He : parse_entry rt v =
               TypeError (match v with
                          | JNull => "Cannot read properties of null (reading 'location')"
                          | _ => "Cannot read properties of undefined (reading 'row')"
                          end)).
  { destruct Hv as [-> | Hloc]; [reflexivity |].
    unfold parse_entry. rewrite Hloc.
    destruct v; try reflexivity. discriminate Hloc. }
  unfold parseMessages, parse_body. rewrite Hp. simpl.
  rewrite (map_elems_stops _ _ _ _ _ Hpre He). simpl.
  unfold appendLine. now rewrite <- app_assoc.
Qed.

Lemma minus_same_runtime (rt' : Runtime) (v : JsValue) (k : Z) :
  minus_coerced rt' = minus_coerced rt -> minus rt' v k = minus rt v k.
Proof. intros H. unfold minus. now rewrite H. Qed.

(** X9: for an entry whose [fix] is missing, [null] or otherwise falsy,
    neither [Uri.parse] nor [Range.create] has a say: the callback gives
    the same result whatever the two do (so a file name [Uri.parse]
    would refuse is harmless there). *)
Theorem parse_entry_without_fix (rt' : Runtime) (v fx : JsValue) :
  minus_coerced rt' = minus_coerced rt ->
  info_id rt' = info_id rt ->
  get v "fix" = inr fx ->
  truthy fx = false ->
  parse_entry rt' v = parse_entry rt v.
Proof.
  intros Hminus Hid Hfix Hfalsy. unfold parse_entry.
  destruct (get v "location") as [e | loc]; simpl; [reflexivity |].
  destruct (get loc "row") as [e | line]; simpl; [reflexivity |].
  destruct (get loc "column") as [e | c]; simpl; [reflexivity |].
  rewrite (minus_same_runtime rt' c COLUMN_OFF_SET Hminus).
  destruct (minus rt c COLUMN_OFF_SET) as [e | column]; simpl; [reflexivity |].
  destruct (get v "end_location") as [e | eloc]; simpl; [reflexivity |].
  destruct (get eloc "row") as [e | endLine]; simpl; [reflexivity |].
  destruct (get eloc "column") as [e | endColumn]; simpl; [reflexivity |].
  destruct (get v "code") as [e | code]; simpl; [reflexivity |].
  destruct (get v "message") as [e | message]; simpl; [reflexivity |].
  destruct (get v "filename") as [e | file]; simpl; [reflexivity |].
  rewrite Hfix. simpl. unfold fixToWorkspaceEdit. rewrite Hfalsy. simpl.
  now rewrite Hid.
Qed.

End RuffEdgeCases.

(** ** More on the resolver: the last probe, and probes that fail *)

Section ResolverEdgeCases.

Import Config.
Local Open Scope host_scope.

Variable h : Host.

(** Without environment markers, [.python-version] and [Pipfile],
    resolution is the poetry probe and what follows it. *)
Lemma falls_to_poetry (root : string) (w : World) :
  virtualenv_misses h w ->
  set_to (env w !! "CONDA_PREFIX") = None ->
  fs_existsSync h (path_join h [root; ".python-version"]) = false ->
  fs_existsSync h (path_join h [root; "Pipfile"]) = false ->
  probe_virtualenv h root w =
    probe_poetry h root
      (called w (virtualenv_calls h w ++
                 [ExistsSync (path_join h [root; ".python-version"]);
                  ExistsSync (path_join h [root; "Pipfile"])])).
Proof.
  intros Hvenv Hconda Hpv Hpip.
  rewrite (probe_virtualenv_miss h _ _ Hvenv).
  rewrite probe_conda_miss by exact Hconda.
  unfold probe_pyenv, and_then. rewrite existsSync_run, Hpv.
  unfold probe_pipenv, and_then. rewrite existsSync_run, Hpip.
  rewrite !called_called, <- ?app_assoc. reflexivity.
Qed.

Lemma workspace_venv_first (root : string) (pre : list string) (f : string)
    (post : list string) (w : World) :
  Forall (fun g => fs_existsSync h (path_join h [path_join h [root; g]; "pyvenv.cfg"]) = false)
         pre ->
  fs_existsSync h (path_join h [path_join h [root; f]; "pyvenv.cfg"]) = true ->
  workspace_venv h root (pre ++ f :: post) w =
    (inr (if fs_existsSync h (pythonBinPath h (path_join h [root; f]))
          then Some (pythonBinPath h (path_join h [root; f])) else None),
     called w (map (fun g => ExistsSync (path_join h [path_join h [root; g]; "pyvenv.cfg"]))
                   (pre ++ [f])
               ++ [ExistsSync (pythonBinPath h (path_join h [root; f]))])).
Proof.
  intros Hpre Hf. revert w.
  induction Hpre as [| g pre Hg _ IH]; intros w; simpl.
  - unfold and_then. rewrite existsSync_run, Hf, pythonBinFromPath_run, called_called.
    reflexivity.
  - unfold and_then. rewrite existsSync_run, Hg, IH, called_called. reflexivity.
Qed.

Lemma workspace_venv_none (root : string) (files : list string) (w : World) :
  Forall (fun g => fs_existsSync h (path_join h [path_join h [root; g]; "pyvenv.cfg"]) = false)
         files ->
  workspace_venv h root files w =
    (inr None,
     called w (map (fun g => ExistsSync (path_join h [path_join h [root; g]; "pyvenv.cfg"]))
                   files)).
Proof.
  intros Hfiles. revert w.
  induction Hfiles as [| g files Hg _ IH]; intros w; simpl.
  - unfold ret. now rewrite called_nil.
  - unfold and_then. rewrite existsSync_run, Hg, IH, called_called. reflexivity.
Qed.

(** X10: when no earlier probe matches and there is no [poetry.lock],
    the entries of the workspace root are tried in the order
    [readdirSync] lists them; the first one that holds a [pyvenv.cfg]
    decides: the result is its interpreter, or [undefined] when that file
    is missing, and no later entry is looked at. *)
Theorem workspace_probe_first_match (root : string) (w : World)
    (pre : list string) (f : string) (post : list string) :
  virtualenv_misses h w ->
  set_to (env w !! "CONDA_PREFIX") = None ->
  fs_existsSync h (path_join h [root; ".python-version"]) = false ->
  fs_existsSync h (path_join h [root; "Pipfile"]) = false ->
  fs_existsSync h (path_join h [root; "poetry.lock"]) = false ->
  fs_readdirSync h root = inr (pre ++ f :: post)%list ->
  Forall (fun g => fs_existsSync h (path_join h [path_join h [root; g]; "pyvenv.cfg"]) = false)
         pre ->
  fs_existsSync h (path_join h [path_join h [root; f]; "pyvenv.cfg"]) = true ->
  resolvePythonFromVENV h root w =
    (inr (if fs_existsSync h (pythonBinPath h (path_join h [root; f]))
          then Some (pythonBinPath h (path_join h [root; f])) else None),
     called w
       (virtualenv_calls h w ++
        [ExistsSync (path_join h [root; ".python-version"]);
         ExistsSync (path_join h [root; "Pipfile"]);
         ExistsSync (path_join h [root; "poetry.lock"]);
         ReaddirSync root] ++
        map (fun g => ExistsSync (path_join h [path_join h [root; g]; "pyvenv.cfg"]))
            (pre ++ [f]) ++
        [ExistsSync (pythonBinPath h (path_join h [root; f]))])).
Proof.
  intros Hvenv Hconda Hpv Hpip Hlock Hdir Hpre Hf.
  unfold resolvePythonFromVENV, try_catch.
  rewrite (falls_to_poetry _ _ Hvenv Hconda Hpv Hpip).
  unfold probe_poetry, and_then. rewrite existsSync_run, Hlock.
  unfold probe_workspace, and_then, readdirSync, and_then, record, lift. simpl.
  rewrite Hdir.
  rewrite (workspace_venv_first _ _ _ _ _ Hpre Hf).
  unfold called. simpl. rewrite <- !app_assoc. reflexivity.
Qed.

(** X11: when no earlier probe matches, there is no [poetry.lock], and no
    entry of the workspace root holds a [pyvenv.cfg], the result is
    [undefined] after every entry has been tried; when the root cannot
    be listed the error is written with [console.error] and the result is
    [undefined] as well. *)
Theorem workspace_probe_no_match (root : string) (w : World) :
  virtualenv_misses h w ->
  set_to (env w !! "CONDA_PREFIX") = None ->
  fs_existsSync h (path_join h [root; ".python-version"]) = false ->
  fs_existsSync h (path_join h [root; "Pipfile"]) = false ->
  fs_existsSync h (path_join h [root; "poetry.lock"]) = false ->
  let before :=
    (virtualenv_calls h w ++
     [ExistsSync (path_join h [root; ".python-version"]);
      ExistsSync (path_join h [root; "Pipfile"]);
      ExistsSync (path_join h [root; "poetry.lock"]);
      ReaddirSync root])%list in
  match fs_readdirSync h root with
  | inl e =>
      resolvePythonFromVENV h root w =
        (inr None,
         {| env := env w; calls := (calls w ++ before)%list;
            console := (console w ++ [e])%list |})
  | inr files =>
      Forall (fun g =>
                fs_existsSync h (path_join h [path_join h [root; g]; "pyvenv.cfg"]) = false)
             files ->
      resolvePythonFromVENV h root w =
        (inr None,
         called w
           (before ++
            map (fun g => ExistsSync (path_join h [path_join h [root; g]; "pyvenv.cfg"]))
                files))
  end.
Proof.
  intros Hvenv Hconda Hpv Hpip Hlock before. subst before.
  unfold resolvePythonFromVENV, try_catch.
  rewrite (falls_to_poetry _ _ Hvenv Hconda Hpv Hpip).
  unfold probe_poetry, and_then. rewrite existsSync_run, Hlock.
  unfold probe_workspace, and_then, readdirSync, and_then, record, lift. simpl.
  destruct (fs_readdirSync h root) as [e | files].
  - simpl. rewrite <- !app_assoc. reflexivity.
  - intros Hfiles. rewrite (workspace_venv_none _ _ _ Hfiles).
    unfold called. simpl. rewrite <- !app_assoc. reflexivity.
Qed.

(** X12: when [poetry.lock] exists but poetry cannot be started
    ([stdout] is [null]) or the call throws, the error is written with
    [console.error] and the result is [undefined]: the workspace root is
    not scanned. *)
Theorem poetry_unavailable (root : string) (w : World) :
  virtualenv_misses h w ->
  set_to (env w !! "CONDA_PREFIX") = None ->
  fs_existsSync h (path_join h [root; ".python-version"]) = false ->
  fs_existsSync h (path_join h [root; "Pipfile"]) = false ->
  fs_existsSync h (path_join h [root; "poetry.lock"]) = true ->
  (forall stdout,
      child_process_spawnSync h (env w) "poetry"
        ["env"; "list"; "--full-path"; "--no-ansi"] (Some root) <> inr (Some stdout)) ->
  resolvePythonFromVENV h root w =
    (inr None,
     {| env := env w;
        calls :=
          (calls w ++ virtualenv_calls h w ++
           [ExistsSync (path_join h [root; ".python-version"]);
            ExistsSync (path_join h [root; "Pipfile"]);
            ExistsSync (path_join h [root; "poetry.lock"]);
            SpawnSync "poetry" ["env"; "list"; "--full-path"; "--no-ansi"] (Some root)])%list;
        console :=
          (console w ++
           [match child_process_spawnSync h (env w) "poetry"
                    ["env"; "list"; "--full-path"; "--no-ansi"] (Some root) with
            | inl e => e
            | inr _ =>
                ThrownError "TypeError" "Cannot read properties of null (reading 'trim')"
            end])%list |}).
Proof.
  intros Hvenv Hconda Hpv Hpip Hlock Hout.
  unfold resolvePythonFromVENV, try_catch.
  rewrite (falls_to_poetry _ _ Hvenv Hconda Hpv Hpip).
  unfold probe_poetry, and_then. rewrite existsSync_run, Hlock.
  rewrite spawnSync_stdout_run, !called_called, env_called.
  destruct (child_process_spawnSync h (env w) "poetry" _ (Some root)) as [e | [out |]];
    simpl; [| now destruct (Hout out) |]; rewrite <- !app_assoc; reflexivity.
Qed.

End ResolverEdgeCases.

(** ** What the resolver leaves alone *)

Section EnvironmentFrames.

Import Config Settings.
Local Open Scope host_scope.

Variable R : gmap string string -> gmap string string -> Prop.
Hypothesis R_refl : forall e, R e e.
Hypothesis R_trans : forall a b c, R a b -> R b c -> R a c.

Lemma related_ret {A} (a : A) : env_related R (ret a).
Proof. intros w. apply R_refl. Qed.

Lemma related_raise {A} (e : Thrown) : env_related R (@raise A e).
Proof. intros w. apply R_refl. Qed.

Lemma related_lift {A} (r : JsResult A) : env_related R (lift r).
Proof. intros w. apply R_refl. Qed.

Lemma related_record (c : Call) : env_related R (record c).
Proof. intros w. apply R_refl. Qed.

Lemma related_getenv (name : string) : env_related R (getenv name).
Proof. intros w. apply R_refl. Qed.

Lemma related_current_env : env_related R current_env.
Proof. intros w. apply R_refl. Qed.

Lemma related_console_error (e : Thrown) : env_related R (console_error e).
Proof. intros w. apply R_refl. Qed.

Lemma related_and_then {A B} (m : M A) (k : A -> M B) :
  env_related R m -> (forall a, env_related R (k a)) ->
  env_related R (and_then m k).
Proof.
  intros Hm Hk w. unfold and_then. specialize (Hm w).
  destruct (m w) as [[e | a] w1]; simpl in *; [exact Hm |].
  eapply R_trans; [exact Hm | apply Hk].
Qed.

Lemma related_try_catch {A} (m : M A) (handler : Thrown -> M A) :
  env_related R m -> (forall e, env_related R (handler e)) ->
  env_related R (try_catch m handler).
Proof.
  intros Hm Hh w. unfold try_catch. specialize (Hm w).
  destruct (m w) as [[e | a] w1]; simpl in *; [| exact Hm].
  eapply R_trans; [exact Hm | apply Hh].
Qed.

End EnvironmentFrames.

Section ResolverFrames.

Import Config Settings.
Local Open Scope host_scope.

Variable h : Host.

Lemma hint_only_refl (e : gmap string string) : hint_only e e.
Proof. split; auto. Qed.

Lemma hint_only_trans (a b c : gmap string string) :
  hint_only a b -> hint_only b c -> hint_only a c.
Proof.
  intros [H1 H1'] [H2 H2']. split.
  - intros other Hne. now rewrite (H2 other Hne), (H1 other Hne).
  - intros v Hv. pose proof (H1' v Hv) as ->. exact (H2' v Hv).
Qed.

Section AnyRelation.

Variable R : gmap string string -> gmap string string -> Prop.
Hypothesis R_refl : forall e, R e e.
Hypothesis R_trans : forall a b c, R a b -> R b c -> R a c.

Lemma related_pythonBinFromPath (p : string) : env_related R (pythonBinFromPath h p).
Proof. intros w. rewrite pythonBinFromPath_run. apply R_refl. Qed.

Lemma related_existsSync (p : string) : env_related R (existsSync h p).
Proof. intros w. rewrite existsSync_run. apply R_refl. Qed.

Lemma related_workspace_venv (root : string) (files : list string) :
  env_related R (workspace_venv h root files).
Proof.
  induction files as [| f files IH]; simpl.
  - apply (related_ret _ R_refl).
  - apply (related_and_then _ R_trans); [apply related_existsSync | intros b].
    destruct b; [apply related_pythonBinFromPath | exact IH].
Qed.

Lemma related_probe_workspace (root : string) : env_related R (probe_workspace h root).
Proof.
  unfold probe_workspace, readdirSync.
  apply (related_and_then _ R_trans); [| intros files; apply related_workspace_venv].
  apply (related_and_then _ R_trans);
    [apply (related_record _ R_refl) | intros _; apply (related_lift _ R_refl)].
Qed.

Lemma related_spawnSync_stdout (command : string) (args : list string)
    (cwd : option string) :
  env_related R (spawnSync_stdout h command args cwd).
Proof. intros w. rewrite spawnSync_stdout_run. apply R_refl. Qed.

Lemma related_stdout_trim (out : option string) : env_related R (stdout_trim out).
Proof.
  destruct out; [apply (related_ret _ R_refl) | apply (related_raise _ R_refl)].
Qed.

Lemma related_probe_poetry (root : string) : env_related R (probe_poetry h root).
Proof.
  unfold probe_poetry.
  apply (related_and_then _ R_trans); [apply related_existsSync | intros b].
  destruct b; [| apply related_probe_workspace].
  apply (related_and_then _ R_trans); [apply related_spawnSync_stdout | intros out].
  apply (related_and_then _ R_trans); [apply related_stdout_trim | intros list].
  destruct (JsString.nonempty _);
    [apply related_pythonBinFromPath | apply related_probe_workspace].
Qed.

Lemma related_probe_pipenv (root : string) : env_related R (probe_pipenv h root).
Proof.
  unfold probe_pipenv.
  apply (related_and_then _ R_trans); [apply related_existsSync | intros b].
  destruct b; [| apply related_probe_poetry].
  apply (related_and_then _ R_trans); [apply related_spawnSync_stdout | intros out].
  apply (related_and_then _ R_trans); [apply related_stdout_trim | intros py].
  apply (related_ret _ R_refl).
Qed.

End AnyRelation.

(** The one assignment to [process.env]: made only when the variable is
    not set. *)
Lemma hint_only_probe_pyenv (root : string) : env_related hint_only (probe_pyenv h root).
Proof.
  intros w. unfold probe_pyenv, and_then. rewrite existsSync_run.
  destruct (fs_existsSync h _).
  - rewrite getenv_run, env_called.
    destruct (set_to (env w !! "PYENV_VERSION")) as [v |] eqn:Ev.
    + apply hint_only_refl.
    + unfold readFileSync, and_then, record, lift. simpl.
      destruct (fs_readFileSync h _) as [e | content]; simpl.
      * apply hint_only_refl.
      * split.
        -- intros other Hne. now apply lookup_insert_ne.
        -- intros v Hv. congruence.
  - exact (related_probe_pipenv _ hint_only_refl hint_only_trans root
             (called w [ExistsSync (path_join h [root; ".python-version"])])).
Qed.

Lemma hint_only_resolvePythonFromVENV (root : string) :
  env_related hint_only (resolvePythonFromVENV h root).
Proof.
  unfold resolvePythonFromVENV, log_and_give_up.
  apply (related_try_catch _ hint_only_trans).
  2:{ intros e. apply (related_and_then _ hint_only_trans);
        [apply (related_console_error _ hint_only_refl)
        | intros _; apply (related_ret _ hint_only_refl)]. }
  unfold probe_virtualenv.
  apply (related_and_then _ hint_only_trans);
    [apply (related_getenv _ hint_only_refl) | intros venv].
  assert (Hconda : env_related hint_only (probe_conda h root)).
  { unfold probe_conda.
    apply (related_and_then _ hint_only_trans);
      [apply (related_getenv _ hint_only_refl) | intros conda].
    destruct (set_to conda);
      [apply (related_pythonBinFromPath _ hint_only_refl)
      | apply hint_only_probe_pyenv]. }
  destruct (set_to venv); [| exact Hconda].
  apply (related_and_then _ hint_only_trans);
    [apply (related_existsSync _ hint_only_refl) | intros b].
  destruct b; [apply (related_pythonBinFromPath _ hint_only_refl) | exact Hconda].
Qed.

End ResolverFrames.

(** ** The setters, [update], the instances and the tool paths *)

Section SettingsFacts.

Import Config Settings.
Local Open Scope host_scope.

Variable h : Host.

(** X13: [getStdLibs] returns the two trimmed outputs when both runs of
    the interpreter print, and the empty list as soon as one of them
    cannot be started or throws; it never throws, and the second run is
    not made when the first fails. *)
Theorem getStdLibs_result (pythonPath : string) (w : World) :
  let site := ["-c"; "import site;print(site.getsitepackages()[0])"] in
  let user := ["-c"; "import site;print(site.getusersitepackages())"] in
  getStdLibs h pythonPath w =
    match child_process_spawnSync h (env w) pythonPath site None with
    | inr (Some sitePkgs) =>
        (inr match child_process_spawnSync h (env w) pythonPath user None with
             | inr (Some userPkgs) => [JsString.trim sitePkgs; JsString.trim userPkgs]
             | _ => []
             end,
         called w [SpawnSync pythonPath site None; SpawnSync pythonPath user None])
    | _ => (inr [], called w [SpawnSync pythonPath site None])
    end.
Proof.
  intros site user. unfold getStdLibs, try_catch, and_then.
  rewrite spawnSync_stdout_run. fold site.
  destruct (child_process_spawnSync h (env w) pythonPath site None) as [e | [out |]];
    simpl; try reflexivity.
  fold user.
  destruct (child_process_spawnSync h (env w) pythonPath user None) as [e | [out' |]];
    simpl; unfold ret, called; simpl; rewrite <- ?app_assoc; reflexivity.
Qed.

(** X14: [isValidPythonPath] is [true] exactly when the run of the path
    with [-c print(1234)] prints text that starts with [1234]; a process
    that cannot be started, or a call that throws, gives [false] and no
    exception. *)
Theorem isValidPythonPath_result (pythonPath : string) (w : World) :
  isValidPythonPath h pythonPath w =
    (inr match child_process_spawnSync h (env w) pythonPath ["-c"; "print(1234)"] None with
         | inr (Some stdout) => JsString.startsWith stdout "1234"
         | _ => false
         end,
     called w [SpawnSync pythonPath ["-c"; "print(1234)"] None]).
Proof.
  unfold isValidPythonPath, try_catch, and_then. rewrite spawnSync_stdout_run.
  destruct (child_process_spawnSync h (env w) pythonPath _ None) as [e | [out |]];
    reflexivity.
Qed.

Lemma set_pythonPath_run (value : string) (this : PythonSettings) (w : World) :
  exists this' cs,
    set_pythonPath h value this w = (inr this', called w cs) /\
    workspaceRoot this' = workspaceRoot this /\
    _configPythonPath this' = _configPythonPath this /\
    _configStdLibs this' = _configStdLibs this /\
    (value = _pythonPath this -> this' = this /\ cs = []) /\
    (value <> _pythonPath this -> cs <> []).
Proof.
  unfold set_pythonPath.
  destruct (String.eqb_spec (_pythonPath this) value) as [E | Hne].
  - exists this, []. unfold ret. rewrite called_nil.
    split; [reflexivity |]. split; [reflexivity |]. split; [reflexivity |].
    split; [reflexivity |]. split; [intros _; split; reflexivity |].
    intros Hne. congruence.
  - destruct (getPythonExecutable_total h value w) as (p & cs & Hexe).
    destruct (getStdLibs_run h p (called w (cs ++ [SpawnSync p ["-c"; "print(1234)"] None])))
      as (libs & ds & Hlibs).
    eexists _, _. unfold try_catch, and_then. rewrite Hexe. simpl _pythonPath.
    rewrite Hlibs, called_called.
    split; [reflexivity |]. split; [reflexivity |]. split; [reflexivity |].
    split; [reflexivity |]. split; [intros Heq; congruence |].
    intros _. destruct cs; simpl; discriminate.
Qed.

Lemma set_configPythonPath_run (value : string) (this : PythonSettings) (w : World) :
  exists this' cs,
    set_configPythonPath h value this w = (inr this', called w cs) /\
    workspaceRoot this' = workspaceRoot this /\
    _pythonPath this' = _pythonPath this /\
    _stdLibs this' = _stdLibs this /\
    (value = _configPythonPath this -> this' = this /\ cs = []) /\
    (value <> _configPythonPath this -> cs <> []).
Proof.
  unfold set_configPythonPath.
  destruct (String.eqb_spec (_configPythonPath this) value) as [E | Hne].
  - exists this, []. unfold ret. rewrite called_nil.
    split; [reflexivity |]. split; [reflexivity |]. split; [reflexivity |].
    split; [reflexivity |]. split; [intros _; split; reflexivity |].
    intros Hne. congruence.
  - destruct (getPythonExecutable_total h value w) as (p & cs & Hexe).
    destruct (getStdLibs_run h p (called w (cs ++ [SpawnSync p ["-c"; "print(1234)"] None])))
      as (libs & ds & Hlibs).
    eexists _, _. unfold try_catch, and_then. rewrite Hexe. simpl _configPythonPath.
    rewrite Hlibs, called_called.
    split; [reflexivity |]. split; [reflexivity |]. split; [reflexivity |].
    split; [reflexivity |]. split; [intros Heq; congruence |].
    intros _. destruct cs; simpl; discriminate.
Qed.

(** X15: neither setter throws, and each keeps to its own fields:
    [pythonPath] leaves [workspaceRoot], [configPythonPath] and
    [configStdLibs] as they are, [configPythonPath] leaves
    [workspaceRoot], [pythonPath] and [stdLibs] as they are, and both
    leave the environment and the error log untouched. *)
Theorem setters_keep_to_their_fields (value : string) (this : PythonSettings) (w : World) :
  (exists this' w',
      set_pythonPath h value this w = (inr this', w') /\
      workspaceRoot this' = workspaceRoot this /\
      _configPythonPath this' = _configPythonPath this /\
      _configStdLibs this' = _configStdLibs this /\
      env w' = env w /\ console w' = console w) /\
  (exists this' w',
      set_configPythonPath h value this w = (inr this', w') /\
      workspaceRoot this' = workspaceRoot this /\
      _pythonPath this' = _pythonPath this /\
      _stdLibs this' = _stdLibs this /\
      env w' = env w /\ console w' = console w).
Proof.
  split.
  - destruct (set_pythonPath_run value this w) as (this' & cs & H & H1 & H2 & H3 & _).
    exists this', (called w cs). repeat split; assumption.
  - destruct (set_configPythonPath_run value this w) as (this' & cs & H & H1 & H2 & H3 & _).
    exists this', (called w cs). repeat split; assumption.
Qed.

Lemma update_run (configured : string) (this : PythonSettings) (w : World) :
  exists vp w1 this' cs,
    resolvePythonFromVENV h (workspaceRoot this) w = (inr vp, w1) /\
    update h configured this w = (inr this', called w1 cs) /\
    workspaceRoot this' = workspaceRoot this.
Proof.
  unfold update. unfold and_then at 1.
  destruct (resolvePythonFromVENV h (workspaceRoot this) w) as [[e | vp] w1] eqn:E.
  - unfold resolvePythonFromVENV, try_catch in E.
    destruct (probe_virtualenv h (workspaceRoot this) w) as [[e' | r] w0];
      discriminate E.
  - destruct (set_pythonPath_run
                (match set_to vp with
                 | Some vp0 => vp0
                 | None => systemVariables_resolve h (workspaceRoot this) configured
                 end) this w1) as (this1 & cs & H1 & Hroot1 & _).
    destruct (set_configPythonPath_run
                (systemVariables_resolve h (workspaceRoot this) configured) this1
                (called w1 cs)) as (this2 & ds & H2 & Hroot2 & _).
    exists vp, w1, this2, (cs ++ ds)%list. split; [reflexivity |].
    unfold and_then. rewrite H1, H2, called_called. split; [reflexivity | congruence].
Qed.

(** X16: [update] never throws and keeps [workspaceRoot]; of the
    environment it changes nothing but [PYENV_VERSION], and not even that
    when the variable was already set. *)
Theorem update_leaves_environment (configured : string) (this : PythonSettings)
    (w : World) :
  exists this' w',
    update h configured this w = (inr this', w') /\
    workspaceRoot this' = workspaceRoot this /\
    (forall other, other <> "PYENV_VERSION" -> env w' !! other = env w !! other) /\
    (forall v, set_to (env w !! "PYENV_VERSION") = Some v -> env w' = env w).
Proof.
  destruct (update_run configured this w) as (vp & w1 & this' & cs & Hvp & Hup & Hroot).
  exists this', (called w1 cs). split; [exact Hup |]. split; [exact Hroot |].
  pose proof (hint_only_resolvePythonFromVENV h (workspaceRoot this) w) as [H1 H2].
  rewrite Hvp in H1, H2. simpl in H1, H2. split; assumption.
Qed.

(** X17: when the probes and the configuration give the interpreter
    paths that are cached already, [update] leaves the five interpreter
    fields as they are and, beyond the probes, makes no call (no search,
    no process); what is left of it is the copy of the tool settings,
    whose error, if there is one, [update] throws. *)
Theorem update_without_change (ws : Workspace) (this : PythonSettings)
    (w w' : World) (vp : option string) :
  resolvePythonFromVENV h (workspaceRoot this) w = (inr vp, w') ->
  _pythonPath this =
    match set_to vp with
    | Some p => p
    | None => systemVariables_resolve h (workspaceRoot this) (configuration_pythonPath ws)
    end ->
  _configPythonPath this =
    systemVariables_resolve h (workspaceRoot this) (configuration_pythonPath ws) ->
  update_settings h ws this w =
    (match tool_settings ws with
     | inr _ => inr this
     | inl e => inl e
     end, w').
Proof.
  intros Hvp Hpath Hconfig. unfold update_settings, update.
  unfold and_then at 1 2 3. rewrite Hvp.
  unfold and_then, set_pythonPath. rewrite <- Hpath, String.eqb_refl.
  unfold ret, set_configPythonPath. rewrite <- Hconfig, String.eqb_refl.
  unfold ret, lift. now destruct (tool_settings ws).
Qed.

(** X18: the cache holds the resolved path, not the configured one: when
    [which] answers a bare name with a different path, setting the same
    name again finds no match in the cache and asks [which] a second
    time. *)
Theorem set_pythonPath_bare_name_not_cached (value bin : string)
    (this : PythonSettings) (w : World) :
  only_python h (untildify h value) = true ->
  set_to (which_sync_nothrow h (env w) (untildify h value)) = Some bin ->
  bin <> value ->
  _pythonPath this <> value ->
  exists this' w',
    set_pythonPath h value this w = (inr this', w') /\
    _pythonPath this' = bin /\
    env w' = env w /\
    exists this'' cs,
      set_pythonPath h value this' w' =
        (inr this'', called w' (WhichSync (untildify h value) :: cs)).
Proof.
  intros Honly Hwhich Hbin Hne.
  assert (Hexe : forall w0, env w0 = env w ->
            getPythonExecutable h value w0 =
              (inr bin, called w0 [WhichSync (untildify h value);
                                   SpawnSync bin ["-c"; "print(1234)"] None])).
  { intros w0 Henv.
    unfold getPythonExecutable. unfold and_then at 1. rewrite Honly.
    unfold and_then at 1. rewrite which_sync_run, Henv, Hwhich. unfold ret at 1.
    unfold and_then.
    destruct (isValidPythonPath_run h bin (called w0 [WhichSync (untildify h value)]))
      as (valid & ->).
    rewrite called_called. now destruct valid. }
  assert (Hset : forall this0 w0, env w0 = env w -> _pythonPath this0 <> value ->
            exists libs ds,
              set_pythonPath h value this0 w0 =
                (inr (with_stdLibs (with_pythonPath this0 bin) libs),
                 called w0 (WhichSync (untildify h value) :: ds))).
  { intros this0 w0 Henv Hne0. unfold set_pythonPath.
    destruct (String.eqb_spec (_pythonPath this0) value) as [E | _]; [congruence |].
    pose proof (Hexe w0 Henv) as Hrun.
    destruct (getStdLibs_run h bin
                (called w0 [WhichSync (untildify h value);
                            SpawnSync bin ["-c"; "print(1234)"] None]))
      as (libs & ds & Hlibs).
    exists libs, (SpawnSync bin ["-c"; "print(1234)"] None :: ds).
    unfold try_catch, and_then. rewrite Hrun. simpl _pythonPath.
    rewrite Hlibs, called_called. reflexivity. }
  destruct (Hset this w eq_refl Hne) as (libs & ds & H1).
  eexists _, _. split; [exact H1 |]. split; [reflexivity |]. split; [reflexivity |].
  destruct (Hset (with_stdLibs (with_pythonPath this bin) libs)
              (called w (WhichSync (untildify h value) :: ds)) eq_refl Hbin)
    as (libs' & ds' & H2).
  eexists _, _. exact H2.
Qed.

(** X19: [getInstance] leaves in the map, under the name of the first
    workspace folder ([unknown] without folders), the settings it returns
    and touches no other key; a later call for a workspace with the same
    key returns the same settings and the same map without probing or
    running anything, whatever the root of that workspace is. *)
Theorem getInstance_twice (ws ws' : Workspace)
    (pythonSettings pythonSettings' : gmap string PythonSettings)
    (settings : PythonSettings) (w w' : World) :
  getInstance h ws pythonSettings w = (inr (settings, pythonSettings'), w') ->
  workspaceFolderKey ws' = workspaceFolderKey ws ->
  pythonSettings' !! workspaceFolderKey ws = Some settings /\
  (forall key, key <> workspaceFolderKey ws ->
     pythonSettings' !! key = pythonSettings !! key) /\
  getInstance h ws' pythonSettings' w' = (inr (settings, pythonSettings'), w').
Proof.
  intros H Hkey. unfold getInstance in *. rewrite Hkey.
  destruct (pythonSettings !! workspaceFolderKey ws) as [s0 |] eqn:E.
  - injection H as <- <- <-. rewrite E. auto.
  - unfold and_then in H.
    destruct (new_PythonSettings h ws w) as [[e | s1] w1]; [discriminate |].
    injection H as <- <- <-. rewrite lookup_insert_eq.
    split; [reflexivity |]. split; [| reflexivity].
    intros key Hne. now apply lookup_insert_ne.
Qed.

(** X20: for a workspace whose key is not in the map, [getInstance]
    builds the settings with [update]: their [workspaceRoot] is
    [workspace.root], or the directory of the extension when there is no
    root, and the environment changes at most by the pyenv hint.  When
    the copy of the tool settings returns, the settings are registered
    under the key and returned; when it throws, [getInstance] throws that
    error and registers nothing. *)
Theorem getInstance_new (ws : Workspace) (pythonSettings : gmap string PythonSettings)
    (w : World) :
  pythonSettings !! workspaceFolderKey ws = None ->
  exists settings w',
    getInstance h ws pythonSettings w =
      (match tool_settings ws with
       | inr _ => inr (settings, <[workspaceFolderKey ws := settings]> pythonSettings)
       | inl e => inl e
       end, w') /\
    workspaceRoot settings =
      (if JsString.nonempty (workspace_root ws) then workspace_root ws
       else extension_dirname ws) /\
    hint_only (env w) (env w').
Proof.
  intros Hnone. unfold getInstance. rewrite Hnone.
  unfold new_PythonSettings, update_settings. unfold and_then at 1 2.
  match goal with
  | |- context [update h ?c ?this w] =>
      destruct (update_run c this w) as (vp & w1 & this' & cs & Hvp & Hup & Hroot);
      pose proof (hint_only_resolvePythonFromVENV h (workspaceRoot this) w) as Hhint;
      rewrite Hvp in Hhint; rewrite Hup
  end.
  exists this', (called w1 cs). split; [| split; [exact Hroot | exact Hhint]].
  unfold and_then, lift, ret. now destruct (tool_settings ws).
Qed.

End SettingsFacts.

Section ToolPaths.

Import Config Settings.

Variable h : Host.
Variable path_isAbsolute : string -> bool.
Variable path_resolve : string -> string -> string.

(** X21: provided [path.resolve] returns absolute paths, what
    [getAbsolutePath] returns is either a name without separator, left
    as given (after the expansion of [~]), or an absolute path; a path
    that is absolute already is returned as it is. *)
Theorem getAbsolutePath_shape (this : PythonSettings) (pathToCheck : string)
    (rootDir : option string) :
  (forall root p, path_isAbsolute (path_resolve root p) = true) ->
  let p := untildify h pathToCheck in
  let q := getAbsolutePath h path_isAbsolute path_resolve this pathToCheck rootDir in
  (JsString.includes p (path_sep h) = false -> q = p) /\
  (path_isAbsolute p = true -> q = p) /\
  (JsString.includes p (path_sep h) = true -> path_isAbsolute q = true).
Proof.
  intros Hresolve p q. subst q. unfold getAbsolutePath. fold p.
  destruct (JsString.includes p (path_sep h)) eqn:Esep; simpl.
  - split; [discriminate |].
    destruct (path_isAbsolute p) eqn:Eabs.
    + split; [reflexivity | intros _; exact Eabs].
    + split; [discriminate | intros _; apply Hresolve].
  - split; [reflexivity |]. split; [reflexivity | discriminate].
Qed.

End ToolPaths.

Section PyenvHint.

Import Config.

Lemma split_pieces (sep : ascii) (s : string) :
  Forall (fun piece => ~ In sep (list_ascii_of_string piece)) (JsString.split sep s).
Proof.
  induction s as [| c s IH]; simpl.
  - repeat constructor. simpl. tauto.
  - destruct (Ascii.eqb_spec c sep) as [-> | Hne].
    + constructor; [simpl; tauto | exact IH].
    + destruct (JsString.split sep s) as [| first others]; [repeat constructor; simpl; intuition |].
      inversion IH as [| ? ? Hfirst Hothers]; subst.
      constructor; [| exact Hothers].
      simpl. intros [Heq | Hin]; [congruence | exact (Hfirst Hin)].
Qed.

Lemma split_not_empty (sep : ascii) (s : string) : JsString.split sep s <> [].
Proof.
  destruct s as [| c s]; simpl; [discriminate |].
  destruct (Ascii.eqb c sep); [discriminate |].
  destruct (JsString.split sep s); discriminate.
Qed.

(** X22: the value recorded from [.python-version] is one line: whatever
    the file holds, the text taken from it contains no line feed, and it
    is a prefix of the trimmed content. *)
Theorem first_line_is_one_line (content : string) :
  ~ In JsString.newline (list_ascii_of_string (first_line content)) /\
  String.prefix (first_line content) (JsString.trim content) = true.
Proof.
  unfold first_line. split.
  - pose proof (split_pieces JsString.newline (JsString.trim content)) as H.
    destruct (JsString.split JsString.newline (JsString.trim content)) as [| first others].
    + simpl. tauto.
    + inversion H. assumption.
  - generalize (JsString.trim content). intros s.
    induction s as [| c s IH]; simpl; [reflexivity |].
    destruct (Ascii.eqb c JsString.newline); simpl; [reflexivity |].
    destruct (JsString.split JsString.newline s) as [| first others] eqn:E.
    + now destruct (split_not_empty _ _ E).
    + simpl in *. destruct (Ascii.ascii_dec c c); [exact IH | congruence].
Qed.

End PyenvHint.

(** ** The further properties on the sample runtime and hosts *)

Section MoreExamples.

Import Ruff Config Settings.
Local Open Scope host_scope.

Example resolve_examples :
  map (fun '(root, p) => Sample.path_resolve root p)
      [("/w", "bin/ruff"); ("/w", "../tools/./ruff"); ("w", "x/y"); ("", "a/b"); ("/w", "/usr/bin/ruff")]
  = ["/w/bin/ruff"; "/tools/ruff"; "/w/x/y"; "/a/b"; "/usr/bin/ruff"].
Proof. vm_compute. reflexivity. Qed.

Lemma parseMessages_not_an_array_witness :
  parseMessages Node.runtime "{}" [] =
    ([], ["Linting with ruff failed:"; "JSON.parse(...).map is not a function"]).
Proof.
  apply (parseMessages_not_an_array Node.runtime "{}" (JObj []) []).
  - vm_compute. reflexivity.
  - discriminate.
Defined.

Lemma parseMessages_all_or_nothing_witness :
  (exists ms,
      parseMessages Node.runtime Node.sample_output [] = (ms, []) /\
      Forall2 (fun v m => parse_entry Node.runtime v = inr m) Node.sample_parsed ms)
  \/
  (exists pre v post e,
      Node.sample_parsed = (pre ++ v :: post)%list /\
      Forall (fun u => exists m, parse_entry Node.runtime u = inr m) pre /\
      parse_entry Node.runtime v = inl e /\
      parseMessages Node.runtime Node.sample_output [] =
        ([], ([] ++ ("Linting with " ++ info_id Node.runtime ++ " failed:")%string
                 :: (if instanceof_Error e then [error_message e] else []))%list)).
Proof.
  apply (parseMessages_all_or_nothing Node.runtime Node.sample_output Node.sample_parsed []).
  vm_compute. reflexivity.
Defined.

Lemma parseMessages_entry_without_location_witness :
  parseMessages Node.runtime Node.incomplete_output ["ruff check bug.py"] =
    ([], ["ruff check bug.py";
          "Linting with ruff failed:";
          "Cannot read properties of undefined (reading 'row')"]).
Proof.
  apply (parseMessages_entry_without_location Node.runtime Node.incomplete_output
           (take 1 Node.incomplete_parsed)
           (JObj [("code", JStr "E501"); ("message", JStr "Line too long")])
           (drop 2 Node.incomplete_parsed)
           ["ruff check bug.py"]).
  - vm_compute. reflexivity.
  - constructor; [| constructor]. eexists. vm_compute. reflexivity.
  - right. reflexivity.
Defined.

Lemma parse_entry_without_fix_witness :
  exists v,
    Node.sample_parsed !! 1%nat = Some v /\
    parse_entry Node.refusing_runtime v = parse_entry Node.runtime v.
Proof.
  eexists. split; [vm_compute; reflexivity |].
  apply (parse_entry_without_fix Node.runtime Node.refusing_runtime _ JNull);
    vm_compute; reflexivity.
Defined.

Lemma workspace_probe_first_match_witness :
  resolvePythonFromVENV Sample.workspace_host "/w" (Sample.world []) =
    (inr (Some "/w/.venv/bin/python"),
     called (Sample.world [])
       [ExistsSync "/w/.python-version"; ExistsSync "/w/Pipfile";
        ExistsSync "/w/poetry.lock"; ReaddirSync "/w";
        ExistsSync "/w/src/pyvenv.cfg"; ExistsSync "/w/.venv/pyvenv.cfg";
        ExistsSync "/w/.venv/bin/python"]).
Proof.
  apply (workspace_probe_first_match Sample.workspace_host "/w" (Sample.world [])
           ["src"] ".venv" ["old-env"]);
    try (vm_compute; reflexivity); first [exact I | repeat constructor].
Defined.

Lemma workspace_probe_no_match_witness :
  resolvePythonFromVENV Sample.plain_host "/w" (Sample.world []) =
    (inr None,
     called (Sample.world [])
       [ExistsSync "/w/.python-version"; ExistsSync "/w/Pipfile";
        ExistsSync "/w/poetry.lock"; ReaddirSync "/w";
        ExistsSync "/w/src/pyvenv.cfg"; ExistsSync "/w/README.md/pyvenv.cfg"]).
Proof.
  apply (workspace_probe_no_match Sample.plain_host "/w" (Sample.world [])
           I eq_refl eq_refl eq_refl eq_refl).
  repeat constructor.
Defined.

Lemma poetry_unavailable_witness :
  resolvePythonFromVENV Sample.poetry_missing_host "/w" (Sample.world []) =
    (inr None,
     {| env := env (Sample.world []);
        calls :=
          [ExistsSync "/w/.python-version"; ExistsSync "/w/Pipfile";
           ExistsSync "/w/poetry.lock";
           SpawnSync "poetry" ["env"; "list"; "--full-path"; "--no-ansi"] (Some "/w")];
        console :=
          [ThrownError "TypeError" "Cannot read properties of null (reading 'trim')"] |}).
Proof.
  apply (poetry_unavailable Sample.poetry_missing_host "/w" (Sample.world []));
    try (vm_compute; reflexivity);
    first [exact I | intros stdout; vm_compute; discriminate].
Defined.

Lemma update_without_change_witness :
  update_settings Sample.plain_host Sample.cached_workspace Sample.cached_settings
      (Sample.world []) =
    (inr Sample.cached_settings,
     called (Sample.world [])
       [ExistsSync "/w/.python-version"; ExistsSync "/w/Pipfile";
        ExistsSync "/w/poetry.lock"; ReaddirSync "/w";
        ExistsSync "/w/src/pyvenv.cfg"; ExistsSync "/w/README.md/pyvenv.cfg"]).
Proof.
  apply (update_without_change Sample.plain_host Sample.cached_workspace
           Sample.cached_settings (Sample.world []) _ None);
    vm_compute; reflexivity.
Defined.

Lemma set_pythonPath_bare_name_not_cached_witness :
  exists this' w',
    set_pythonPath Sample.path_host "python" (Sample.settings "/w") (Sample.world []) =
      (inr this', w') /\
    _pythonPath this' = "/usr/bin/python3" /\
    env w' = env (Sample.world []) /\
    exists this'' cs,
      set_pythonPath Sample.path_host "python" this' w' =
        (inr this'', called w' (WhichSync "python" :: cs)).
Proof.
  apply (set_pythonPath_bare_name_not_cached Sample.path_host "python" "/usr/bin/python3"
           (Sample.settings "/w") (Sample.world []));
    try (vm_compute; reflexivity); discriminate.
Defined.

Lemma getInstance_twice_witness :
  exists settings pythonSettings' w',
    getInstance Sample.path_host Sample.workspace ∅ (Sample.world []) =
      (inr (settings, pythonSettings'), w') /\
    pythonSettings' !! "w" = Some settings /\
    (forall key, key <> "w" -> pythonSettings' !! key = (∅ : gmap string PythonSettings) !! key) /\
    getInstance Sample.path_host Sample.other_workspace pythonSettings' w' =
      (inr (settings, pythonSettings'), w').
Proof.
  eexists _, _, _.
  assert (H : getInstance Sample.path_host Sample.workspace ∅ (Sample.world []) =
              (inr (_, _), _)) by (vm_compute; reflexivity).
  split; [exact H |].
  exact (getInstance_twice Sample.path_host Sample.workspace Sample.other_workspace
           ∅ _ _ (Sample.world []) _ H eq_refl).
Defined.

Lemma getInstance_new_witness :
  exists settings w',
    getInstance Sample.pyenv_host Sample.workspace ∅ (Sample.world []) =
      (inr (settings, <["w" := settings]> ∅), w') /\
    workspaceRoot settings = "/w" /\
    hint_only (env (Sample.world [])) (env w').
Proof.
  exact (getInstance_new Sample.pyenv_host Sample.workspace ∅ (Sample.world []) eq_refl).
Defined.

Example getInstance_unconfigured :
  exists w',
    getInstance Sample.pyenv_host Sample.unconfigured_workspace ∅ (Sample.world []) =
      (TypeError "Cannot read properties of undefined (reading 'pylintPath')", w') /\
    env w' !! "PYENV_VERSION" = Some "3.11.2".
Proof. eexists. split; vm_compute; reflexivity. Qed.

Lemma isAbsolute_append (a : ascii) (s x : string) :
  PosixPath.isAbsolute (String a s ++ x) = PosixPath.isAbsolute (String a s).
Proof.
  unfold PosixPath.isAbsolute.
  change (String a s ++ x) with (String a (s ++ x)).
  cbn [String.prefix]. destruct (Ascii.ascii_dec "/" a); [| reflexivity].
  destruct (s ++ x); destruct s; reflexivity.
Qed.

Lemma isAbsolute_slash (body : string) : PosixPath.isAbsolute ("/" ++ body) = true.
Proof.
  unfold PosixPath.isAbsolute. change ("/" ++ body) with (String "/" body).
  cbn [String.prefix]. destruct (Ascii.ascii_dec "/" "/"); [| congruence].
  destruct body; reflexivity.
Qed.

Lemma path_resolve_is_absolute (rootDir p : string) :
  PosixPath.isAbsolute (Sample.path_resolve rootDir p) = true.
Proof.
  unfold Sample.path_resolve, PosixPath.resolve.
  assert (H : PosixPath.isAbsolute
                (PosixPath.resolve_from (rev ["/"; rootDir; p]) "") = true).
  { simpl.
    destruct (String.eqb p ""); [| destruct (PosixPath.isAbsolute p) eqn:Ep].
    - destruct (String.eqb rootDir ""); [reflexivity |].
      destruct (PosixPath.isAbsolute rootDir) eqn:Er; [| reflexivity].
      destruct rootDir; [discriminate | now rewrite isAbsolute_append].
    - destruct p; [discriminate | now rewrite isAbsolute_append].
    - destruct (String.eqb rootDir ""); [reflexivity |].
      destruct (PosixPath.isAbsolute rootDir) eqn:Er; [| reflexivity].
      destruct rootDir; [discriminate | now rewrite isAbsolute_append]. }
  cbv zeta. rewrite H. apply isAbsolute_slash.
Qed.

Lemma getAbsolutePath_shape_witness :
  getAbsolutePath Sample.path_host PosixPath.isAbsolute Sample.path_resolve
    (Sample.settings "/w") "ruff" None = "ruff" /\
  getAbsolutePath Sample.path_host PosixPath.isAbsolute Sample.path_resolve
    (Sample.settings "/w") "~/bin/ruff" None = "/home/u/bin/ruff" /\
  PosixPath.isAbsolute
    (getAbsolutePath Sample.path_host PosixPath.isAbsolute Sample.path_resolve
       (Sample.settings "/w") ".venv/bin/ruff" None) = true.
Proof.
  split; [| split].
  - apply (proj1 (getAbsolutePath_shape Sample.path_host PosixPath.isAbsolute
                    Sample.path_resolve (Sample.settings "/w") "ruff" None
                    path_resolve_is_absolute)).
    vm_compute. reflexivity.
  - apply (proj1 (proj2 (getAbsolutePath_shape Sample.path_host PosixPath.isAbsolute
                           Sample.path_resolve (Sample.settings "/w") "~/bin/ruff" None
                           path_resolve_is_absolute))).
    vm_compute. reflexivity.
  - apply (proj2 (proj2 (getAbsolutePath_shape Sample.path_host PosixPath.isAbsolute
                           Sample.path_resolve (Sample.settings "/w") ".venv/bin/ruff" None
                           path_resolve_is_absolute))).
    vm_compute. reflexivity.
Defined.

Example getAbsolutePath_relative :
  getAbsolutePath Sample.path_host PosixPath.isAbsolute Sample.path_resolve
    (Sample.settings "/w") ".venv/bin/ruff" None = "/w/.venv/bin/ruff".
Proof. vm_compute. reflexivity. Qed.

Example trim_examples :
  JsString.trim (Sample.no_break_space ++ "3.9.1" ++ Sample.no_break_space ++ " ") = "3.9.1"
  /\ JsString.trim (Sample.byte_order_mark ++ "  3.9.1 ") = "3.9.1"
  /\ JsString.trim ("/opt/caf" ++ Sample.a_grave ++ " ") = "/opt/caf" ++ Sample.a_grave
  /\ JsString.trim "  a b  " = "a b"
  /\ JsString.trim "   " = "".
Proof. vm_compute. repeat split. Qed.

Example first_line_byte_order_mark :
  first_line (Sample.byte_order_mark ++ "3.9.1" ++ String JsString.newline "3.8.0") = "3.9.1".
Proof. vm_compute. reflexivity. Qed.

End MoreExamples.
